(** * HubFlow (JML Automation Hub): the REST handlers over the storage layer

    A shallow embedding of [shared/schema.ts] (table definitions and the
    insert schemas derived from them), of [server/storage.ts]
    ([DatabaseStorage], one query per method) and of the handlers of
    [server/routes.ts] that the specification talks about.

    - A JavaScript object (a request body, a row returned by the ORM, the
      argument of [.set] or [.values]) is a finite map from property names
      to values; a property that is [undefined] is absent from the map.
    - A JavaScript number is an IEEE 754 binary64 value; the arithmetic of
      the progress computation is the correctly rounded one.
    - A table is the list of its rows in insertion order; the database is a
      record of tables together with the source of [gen_random_uuid()].
      The checks PostgreSQL itself makes on a statement (NOT NULL, enum
      membership, uniqueness) are outside the embedding: a statement stores
      what it is given.
    - A handler is a function from the request and the store to the
      response and the new store.  [new Date()] and [defaultNow()] read the
      clock once per request. *)

From Stdlib Require Import ZArith Floats.SpecFloat.
From stdpp Require Import gmap strings list fin_maps pretty.

Local Open Scope string_scope.

(** ** JavaScript numbers *)

Module Number.

Definition prec : Z := 53.
Definition emax : Z := 1024.

Definition of_Z (z : Z) : spec_float := binary_normalize prec emax z 0 false.
Definition of_nat (n : nat) : spec_float := of_Z (Z.of_nat n).

(** [x / y] and [x * y] *)
Definition div : spec_float → spec_float → spec_float := SFdiv prec emax.
Definition mul : spec_float → spec_float → spec_float := SFmul prec emax.

(** [x === y], [x > y] and [x <= y] on numbers *)
Definition strict_eq (x y : spec_float) : bool := SFeqb x y.
Definition gt (x y : spec_float) : bool := SFltb y x.
Definition le (x y : spec_float) : bool := SFleb x y.

(** [Math.round(x)]: the integral number closest to [x], the one closer
    to +∞ when two are equally close; NaN, the infinities and the zeros
    are returned as they are, and a result of zero keeps the sign of
    [x]. *)
Definition round (x : spec_float) : spec_float :=
  match x with
  | S754_finite s m e =>
      if (0 <=? e)%Z then x
      else
        let v := if s then Z.neg m else Z.pos m in
        let n := ((2 * v + 2 ^ (- e)) / 2 ^ (1 - e))%Z in
        if (n =? 0)%Z then S754_zero s else of_Z n
  | _ => x
  end.

(** [Number.isInteger(x)], used by zod's [int()] check *)
Definition isInteger (x : spec_float) : bool :=
  match x with
  | S754_zero _ => true
  | S754_finite _ m e =>
      if (0 <=? e)%Z then true else (Z.pos m mod 2 ^ (- e) =? 0)%Z
  | _ => false
  end.

End Number.

(** ** Values and objects *)

Inductive value : Type :=
  | VNull
  | VBool (b : bool)
  | VNum (x : spec_float)
  | VStr (s : string)
  | VDate (t : Z)
  | VJson (s : string).

Abbreviation object := (gmap string value).

(** JavaScript truthiness of a property read ([None] is [undefined]) *)
Definition truthy (v : option value) : bool :=
  match v with
  | None | Some VNull => false
  | Some (VBool b) => b
  | Some (VNum x) =>
      match x with
      | S754_zero _ | S754_nan => false
      | _ => true
      end
  | Some (VStr s) => negb (String.eqb s "")
  | Some (VDate _) | Some (VJson _) => true
  end.

(** [v === s] for a string literal [s] *)
Definition is_str (v : option value) (s : string) : bool :=
  match v with
  | Some (VStr s') => String.eqb s' s
  | _ => false
  end.

(** Ascending order of a column, NULLs last *)
Definition value_leb (a b : option value) : bool :=
  match a, b with
  | Some (VNum x), Some (VNum y) => Number.le x y
  | Some (VStr x), Some (VStr y) => String.leb x y
  | Some (VDate x), Some (VDate y) => (x <=? y)%Z
  | Some (VBool x), Some (VBool y) => implb x y
  | (None | Some VNull), (None | Some VNull) => true
  | (None | Some VNull), _ => false
  | _, _ => true
  end.

(** ** shared/schema.ts *)

Module Schema.

Inductive coltype : Type :=
  | text | varchar | integer | boolean | timestamp | jsonb
  | pgEnum (values : list string).

Inductive coldefault : Type :=
  | no_default
  | gen_random_uuid
  | defaultNow
  | default_value (v : value).

Record column : Type := Column {
  col_key : string;
  col_type : coltype;
  notNull : bool;
  col_default : coldefault
}.

Definition userRoleEnum := pgEnum ["admin"; "hr_manager"; "it_admin"; "manager"; "viewer"].
Definition employeeStatusEnum := pgEnum ["joining"; "active"; "moving"; "leaving"; "departed"].
Definition workflowTypeEnum := pgEnum ["joiner"; "mover"; "leaver"].
Definition templateStatusEnum := pgEnum ["draft"; "active"; "archived"].
Definition workflowStatusEnum := pgEnum ["pending"; "in_progress"; "completed"; "blocked"; "cancelled"].
Definition stepStatusEnum := pgEnum ["pending"; "in_progress"; "completed"; "blocked"; "skipped"].
Definition taskStatusEnum := pgEnum ["pending"; "in_progress"; "completed"; "blocked"].

Definition primaryKey := Column "id" varchar true gen_random_uuid.
Definition createdAt := Column "createdAt" timestamp true defaultNow.
Definition updatedAt := Column "updatedAt" timestamp true defaultNow.

Definition users : list column :=
  [ primaryKey;
    Column "email" text true no_default;
    Column "username" text true no_default;
    Column "password" text true no_default;
    Column "firstName" text true no_default;
    Column "lastName" text true no_default;
    Column "role" userRoleEnum true (default_value (VStr "viewer"));
    Column "departmentId" varchar false no_default;
    Column "avatarUrl" text false no_default;
    Column "isActive" boolean true (default_value (VBool true));
    createdAt; updatedAt ].

Definition employees : list column :=
  [ primaryKey;
    Column "employeeNumber" text false no_default;
    Column "firstName" text true no_default;
    Column "lastName" text true no_default;
    Column "email" text true no_default;
    Column "personalEmail" text false no_default;
    Column "phone" text false no_default;
    Column "jobTitle" text true no_default;
    Column "departmentId" varchar true no_default;
    Column "managerId" varchar false no_default;
    Column "status" employeeStatusEnum true (default_value (VStr "joining"));
    Column "startDate" timestamp false no_default;
    Column "endDate" timestamp false no_default;
    Column "location" text false no_default;
    Column "workType" text false (default_value (VStr "full-time"));
    Column "metadata" jsonb false no_default;
    createdAt; updatedAt ].

Definition workflowTemplates : list column :=
  [ primaryKey;
    Column "name" text true no_default;
    Column "description" text false no_default;
    Column "type" workflowTypeEnum true no_default;
    Column "status" templateStatusEnum true (default_value (VStr "draft"));
    Column "version" integer true (default_value (VNum (Number.of_Z 1)));
    Column "isDefault" boolean true (default_value (VBool false));
    Column "estimatedDays" integer false no_default;
    Column "metadata" jsonb false no_default;
    Column "createdBy" varchar false no_default;
    createdAt; updatedAt ].

Definition templateSteps : list column :=
  [ primaryKey;
    Column "templateId" varchar true no_default;
    Column "name" text true no_default;
    Column "description" text false no_default;
    Column "stepOrder" integer true no_default;
    Column "assigneeRole" userRoleEnum false no_default;
    Column "assigneeId" varchar false no_default;
    Column "slaMinutes" integer false no_default;
    Column "isRequired" boolean true (default_value (VBool true));
    Column "automationConfig" jsonb false no_default;
    Column "metadata" jsonb false no_default;
    createdAt ].

Definition workflows : list column :=
  [ primaryKey;
    Column "templateId" varchar true no_default;
    Column "employeeId" varchar true no_default;
    Column "name" text true no_default;
    Column "type" workflowTypeEnum true no_default;
    Column "status" workflowStatusEnum true (default_value (VStr "pending"));
    Column "initiatedBy" varchar true no_default;
    Column "assignedTo" varchar false no_default;
    Column "startDate" timestamp false no_default;
    Column "dueDate" timestamp false no_default;
    Column "completedAt" timestamp false no_default;
    Column "progress" integer true (default_value (VNum (Number.of_Z 0)));
    Column "metadata" jsonb false no_default;
    createdAt; updatedAt ].

Definition workflowSteps : list column :=
  [ primaryKey;
    Column "workflowId" varchar true no_default;
    Column "templateStepId" varchar false no_default;
    Column "name" text true no_default;
    Column "description" text false no_default;
    Column "stepOrder" integer true no_default;
    Column "status" stepStatusEnum true (default_value (VStr "pending"));
    Column "assigneeId" varchar false no_default;
    Column "dueDate" timestamp false no_default;
    Column "startedAt" timestamp false no_default;
    Column "completedAt" timestamp false no_default;
    Column "completedBy" varchar false no_default;
    Column "notes" text false no_default;
    Column "metadata" jsonb false no_default;
    createdAt; updatedAt ].

Definition tasks : list column :=
  [ primaryKey;
    Column "workflowStepId" varchar true no_default;
    Column "workflowId" varchar true no_default;
    Column "title" text true no_default;
    Column "description" text false no_default;
    Column "status" taskStatusEnum true (default_value (VStr "pending"));
    Column "assigneeId" varchar false no_default;
    Column "priority" text false (default_value (VStr "medium"));
    Column "dueDate" timestamp false no_default;
    Column "completedAt" timestamp false no_default;
    Column "completedBy" varchar false no_default;
    Column "metadata" jsonb false no_default;
    createdAt; updatedAt ].

Definition auditLogs : list column :=
  [ primaryKey;
    Column "userId" varchar false no_default;
    Column "action" text true no_default;
    Column "entityType" text true no_default;
    Column "entityId" varchar false no_default;
    Column "description" text false no_default;
    Column "changes" jsonb false no_default;
    Column "ipAddress" text false no_default;
    Column "userAgent" text false no_default;
    createdAt ].

End Schema.

(** ** zod schemas derived by drizzle-zod *)

Module Zod.

Import Schema.

Record field : Type := Field {
  key : string;
  type : coltype;
  optional : bool;
  nullable : bool
}.

Record issue : Type := Issue {
  code : string;
  path : list string;
  message : string
}.

(** [createInsertSchema(table)]: a nullable column is
    [.nullable().optional()], a NOT NULL column with a default is
    [.optional()], any other column is required. *)
Definition createInsertSchema (table : list column) : list field :=
  map (λ c,
    Field (col_key c) (col_type c)
          (negb (notNull c) ||
           match col_default c with no_default => false | _ => true end)
          (negb (notNull c)))
      table.

(** [schema.omit({ k: true, ... })] *)
Definition omit (keys : list string) (schema : list field) : list field :=
  List.filter (λ f, negb (existsb (String.eqb (key f)) keys)) schema.

Definition accepts (t : coltype) (v : value) : bool :=
  match t, v with
  | (text | varchar), VStr _ => true
  | integer, VNum x => Number.isInteger x
  | boolean, VBool _ => true
  | timestamp, VDate _ => true
  | jsonb, _ => true
  | pgEnum values, VStr s => existsb (String.eqb s) values
  | _, _ => false
  end.

Definition expected (t : coltype) : string :=
  match t with
  | text | varchar => "string"
  | integer => "number"
  | boolean => "boolean"
  | timestamp => "date"
  | jsonb => "json"
  | pgEnum _ => "enum"
  end.

Definition received (v : value) : string :=
  match v with
  | VNull => "null"
  | VBool _ => "boolean"
  | VNum _ => "number"
  | VStr _ => "string"
  | VDate _ => "date"
  | VJson _ => "object"
  end.

(** The issue, if any, that one property of the schema raises on [body] *)
Definition check (f : field) (body : object) : option issue :=
  match body !! key f with
  | None =>
      if optional f then None
      else Some (Issue "invalid_type" [key f] "Required")
  | Some VNull =>
      if nullable f then None
      else Some (Issue "invalid_type" [key f]
                       ("Expected " ++ expected (type f) ++ ", received null"))
  | Some v =>
      if accepts (type f) v then None
      else Some (Issue (match type f, v with
                        | pgEnum _, VStr _ => "invalid_enum_value"
                        | _, _ => "invalid_type"
                        end)
                       [key f]
                       ("Expected " ++ expected (type f) ++ ", received " ++ received v))
  end.

(** The parsed data keeps the properties of the schema and strips the
    others. *)
Definition strip (schema : list field) (body : object) : object :=
  foldr (λ f data,
           match body !! key f with
           | Some v => <[key f := v]> data
           | None => data
           end) ∅ schema.

(** [schema.safeParse(body)]: [inl errors] is
    [{ success: false, error: { errors } }], [inr data] is
    [{ success: true, data }]. *)
Definition safeParse (schema : list field) (body : object) : list issue + object :=
  match omap (λ f, check f body) schema with
  | [] => inr (strip schema body)
  | errors => inl errors
  end.

(** [parsed.success] *)
Definition success (parsed : list issue + object) : bool :=
  match parsed with
  | inr _ => true
  | inl _ => false
  end.

Definition insertUserSchema := omit ["id"; "createdAt"; "updatedAt"] (createInsertSchema users).
Definition insertEmployeeSchema := omit ["id"; "createdAt"; "updatedAt"] (createInsertSchema employees).
Definition insertWorkflowSchema := omit ["id"; "createdAt"; "updatedAt"] (createInsertSchema workflows).

End Zod.

(** ** The database behind drizzle's [db] *)

Record store : Type := Store {
  db_users : list object;
  db_employees : list object;
  db_workflowTemplates : list object;
  db_templateSteps : list object;
  db_workflows : list object;
  db_workflowSteps : list object;
  db_tasks : list object;
  db_auditLogs : list object;
  (** the values [gen_random_uuid()] returns, and how many were drawn *)
  db_uuid : nat → string;
  db_drawn : nat
}.

Module Db.

Import Schema.

(** [eq(table.column, s)] *)
Definition eq (column s : string) (row : object) : bool := is_str (row !! column) s.

(** [db.select().from(table).where(p)] *)
Definition select_where (p : object → bool) (rows : list object) : list object :=
  List.filter p rows.

(** [.orderBy(column)]: a stable insertion sort, ascending *)
Fixpoint place (column : string) (row : object) (sorted : list object) : list object :=
  match sorted with
  | [] => [row]
  | r :: rest =>
      if value_leb (row !! column) (r !! column) then row :: r :: rest
      else r :: place column row rest
  end.

Definition orderBy (column : string) (rows : list object) : list object :=
  foldr (place column) [] rows.

(** The row [db.insert(table).values(values)] stores: every column of the
    table, from [values] when the property is defined, else from the
    column's default, else NULL; other properties are ignored. *)
Definition inserted (table : list column) (uuid : string) (now : Z) (values : object) : object :=
  foldr (λ c row,
           <[col_key c :=
               match values !! col_key c with
               | Some v => v
               | None =>
                   match col_default c with
                   | gen_random_uuid => VStr uuid
                   | defaultNow => VDate now
                   | default_value v => v
                   | no_default => VNull
                   end
               end]> row) ∅ table.

(** What [.set(values)] does to one row: the defined properties that name
    a column overwrite it. *)
Definition set (table : list column) (values : object) (row : object) : object :=
  foldr (λ c row,
           match values !! col_key c with
           | Some v => <[col_key c := v]> row
           | None => row
           end) row table.

(** [db.update(table).set(values).where(p)], and its [.returning()] *)
Definition update_where (table : list column) (values : object)
    (p : object → bool) (rows : list object) : list object :=
  map (λ row, if p row then set table values row else row) rows.

Definition returning (table : list column) (values : object)
    (p : object → bool) (rows : list object) : list object :=
  map (set table values) (List.filter p rows).

(** [db.delete(table).where(p)] *)
Definition delete_where (p : object → bool) (rows : list object) : list object :=
  List.filter (λ row, negb (p row)) rows.

End Db.

Definition with_users (rows : list object) (st : store) : store :=
  Store rows (db_employees st) (db_workflowTemplates st) (db_templateSteps st)
        (db_workflows st) (db_workflowSteps st) (db_tasks st) (db_auditLogs st)
        (db_uuid st) (db_drawn st).

Definition with_employees (rows : list object) (st : store) : store :=
  Store (db_users st) rows (db_workflowTemplates st) (db_templateSteps st)
        (db_workflows st) (db_workflowSteps st) (db_tasks st) (db_auditLogs st)
        (db_uuid st) (db_drawn st).

Definition with_workflowTemplates (rows : list object) (st : store) : store :=
  Store (db_users st) (db_employees st) rows (db_templateSteps st)
        (db_workflows st) (db_workflowSteps st) (db_tasks st) (db_auditLogs st)
        (db_uuid st) (db_drawn st).

Definition with_templateSteps (rows : list object) (st : store) : store :=
  Store (db_users st) (db_employees st) (db_workflowTemplates st) rows
        (db_workflows st) (db_workflowSteps st) (db_tasks st) (db_auditLogs st)
        (db_uuid st) (db_drawn st).

Definition with_workflows (rows : list object) (st : store) : store :=
  Store (db_users st) (db_employees st) (db_workflowTemplates st) (db_templateSteps st)
        rows (db_workflowSteps st) (db_tasks st) (db_auditLogs st)
        (db_uuid st) (db_drawn st).

Definition with_workflowSteps (rows : list object) (st : store) : store :=
  Store (db_users st) (db_employees st) (db_workflowTemplates st) (db_templateSteps st)
        (db_workflows st) rows (db_tasks st) (db_auditLogs st)
        (db_uuid st) (db_drawn st).

Definition with_auditLogs (rows : list object) (st : store) : store :=
  Store (db_users st) (db_employees st) (db_workflowTemplates st) (db_templateSteps st)
        (db_workflows st) (db_workflowSteps st) (db_tasks st) rows
        (db_uuid st) (db_drawn st).

(** One call of [gen_random_uuid()] *)
Definition fresh_uuid (st : store) : string := db_uuid st (db_drawn st).

Definition draw_uuid (st : store) : store :=
  Store (db_users st) (db_employees st) (db_workflowTemplates st) (db_templateSteps st)
        (db_workflows st) (db_workflowSteps st) (db_tasks st) (db_auditLogs st)
        (db_uuid st) (S (db_drawn st)).

(** ** server/storage.ts: [DatabaseStorage] *)

Module Storage.

(** [{ ...data, updatedAt: new Date() }] *)
Definition touched (now : Z) (data : object) : object :=
  <["updatedAt" := VDate now]> data.

(** *** Users *)

Definition getUser (id : string) (st : store) : option object :=
  head (Db.select_where (Db.eq "id" id) (db_users st)).

Definition getUsers (st : store) : list object :=
  Db.orderBy "firstName" (db_users st).

Definition createUser (now : Z) (insertUser : object) (st : store) : object * store :=
  let user := Db.inserted Schema.users (fresh_uuid st) now insertUser in
  (user, draw_uuid (with_users (db_users st ++ [user]) st)).

Definition updateUser (now : Z) (id : string) (userData : object) (st : store)
    : option object * store :=
  (head (Db.returning Schema.users (touched now userData) (Db.eq "id" id) (db_users st)),
   with_users (Db.update_where Schema.users (touched now userData) (Db.eq "id" id) (db_users st)) st).

Definition deleteUser (id : string) (st : store) : bool * store :=
  (true, with_users (Db.delete_where (Db.eq "id" id) (db_users st)) st).

(** *** Employees *)

Definition getEmployee (id : string) (st : store) : option object :=
  head (Db.select_where (Db.eq "id" id) (db_employees st)).

Definition createEmployee (now : Z) (insertEmployee : object) (st : store) : object * store :=
  let employee := Db.inserted Schema.employees (fresh_uuid st) now insertEmployee in
  (employee, draw_uuid (with_employees (db_employees st ++ [employee]) st)).

Definition updateEmployee (now : Z) (id : string) (employeeData : object) (st : store)
    : option object * store :=
  (head (Db.returning Schema.employees (touched now employeeData) (Db.eq "id" id) (db_employees st)),
   with_employees
     (Db.update_where Schema.employees (touched now employeeData) (Db.eq "id" id) (db_employees st)) st).

Definition deleteEmployee (id : string) (st : store) : bool * store :=
  (true, with_employees (Db.delete_where (Db.eq "id" id) (db_employees st)) st).

(** *** Workflow templates and their steps *)

Definition getWorkflowTemplate (id : string) (st : store) : option object :=
  head (Db.select_where (Db.eq "id" id) (db_workflowTemplates st)).

Definition deleteWorkflowTemplate (id : string) (st : store) : bool * store :=
  (true, with_workflowTemplates (Db.delete_where (Db.eq "id" id) (db_workflowTemplates st)) st).

Definition getTemplateSteps (templateId : string) (st : store) : list object :=
  Db.orderBy "stepOrder" (Db.select_where (Db.eq "templateId" templateId) (db_templateSteps st)).

Definition createTemplateStep (now : Z) (insertStep : object) (st : store) : object * store :=
  let step := Db.inserted Schema.templateSteps (fresh_uuid st) now insertStep in
  (step, draw_uuid (with_templateSteps (db_templateSteps st ++ [step]) st)).

Definition deleteTemplateStepsByTemplateId (templateId : string) (st : store) : bool * store :=
  (true, with_templateSteps
           (Db.delete_where (Db.eq "templateId" templateId) (db_templateSteps st)) st).

(** *** Workflows *)

Definition getWorkflow (id : string) (st : store) : option object :=
  head (Db.select_where (Db.eq "id" id) (db_workflows st)).

Definition createWorkflow (now : Z) (insertWorkflow : object) (st : store) : object * store :=
  let workflow := Db.inserted Schema.workflows (fresh_uuid st) now insertWorkflow in
  (workflow, draw_uuid (with_workflows (db_workflows st ++ [workflow]) st)).

Definition updateWorkflow (now : Z) (id : string) (workflowData : object) (st : store)
    : option object * store :=
  (head (Db.returning Schema.workflows (touched now workflowData) (Db.eq "id" id) (db_workflows st)),
   with_workflows
     (Db.update_where Schema.workflows (touched now workflowData) (Db.eq "id" id) (db_workflows st)) st).

Definition deleteWorkflow (id : string) (st : store) : bool * store :=
  (true, with_workflows (Db.delete_where (Db.eq "id" id) (db_workflows st)) st).

(** *** Workflow steps *)

Definition getWorkflowSteps (workflowId : string) (st : store) : list object :=
  Db.orderBy "stepOrder" (Db.select_where (Db.eq "workflowId" workflowId) (db_workflowSteps st)).

Definition createWorkflowStep (now : Z) (insertStep : object) (st : store) : object * store :=
  let step := Db.inserted Schema.workflowSteps (fresh_uuid st) now insertStep in
  (step, draw_uuid (with_workflowSteps (db_workflowSteps st ++ [step]) st)).

Definition updateWorkflowStep (now : Z) (id : string) (stepData : object) (st : store)
    : option object * store :=
  (head (Db.returning Schema.workflowSteps (touched now stepData) (Db.eq "id" id) (db_workflowSteps st)),
   with_workflowSteps
     (Db.update_where Schema.workflowSteps (touched now stepData) (Db.eq "id" id) (db_workflowSteps st)) st).

(** *** Audit logs *)

Definition createAuditLog (now : Z) (insertLog : object) (st : store) : object * store :=
  let log := Db.inserted Schema.auditLogs (fresh_uuid st) now insertLog in
  (log, draw_uuid (with_auditLogs (db_auditLogs st ++ [log]) st)).

End Storage.

(** ** server/routes.ts *)

Module Routes.

(** What a handler sends: [res.json(...)] of a row, of a list of rows, of
    [{ message }] or of [{ message, errors }]; [res.send()] with no body;
    or, when the handler throws, whatever the error middleware sends. *)
Inductive json : Type :=
  | NoBody
  | JObject (o : object)
  | JArray (rows : list object)
  | JMessage (message : string)
  | JInvalid (message : string) (errors : list Zod.issue)
  | ErrorPage.

Record response : Type := Response {
  status : nat;
  body : json
}.

(** [const { password, ...rest } = user; return rest] *)
Definition omitPassword (user : object) : object := delete "password" user.

(** [v || null] *)
Definition or_null (v : option value) : value :=
  match v with
  | Some x => if truthy v then x else VNull
  | None => VNull
  end.

(** [`${v}`] for a property read from a text column *)
Definition str (v : option value) : string :=
  match v with
  | Some (VStr s) => s
  | Some _ => "null"
  | None => "undefined"
  end.

Definition createAuditLog (now : Z) (userId : option value) (action entityType : string)
    (entityId description : option value) (st : store) : store :=
  snd (Storage.createAuditLog now
         (<["userId" := or_null userId]>
          (<["action" := VStr action]>
           (<["entityType" := VStr entityType]>
            (<["entityId" := or_null entityId]>
             (<["description" := or_null description]>
              (<["changes" := VNull]>
               (<["ipAddress" := VNull]>
                (<["userAgent" := VNull]> ∅))))))))
         st).

(** *** Users *)

Section Users.

(** [bcrypt.hash(password, rounds)] *)
Variable bcrypt_hash : string → nat → string.

Definition get_users (st : store) : response * store :=
  (Response 200 (JArray (map omitPassword (Storage.getUsers st))), st).

Definition get_user (id : string) (st : store) : response * store :=
  match Storage.getUser id st with
  | None => (Response 404 (JMessage "User not found"), st)
  | Some user => (Response 200 (JObject (omitPassword user)), st)
  end.

Definition post_users (now : Z) (req_body : object) (st : store) : response * store :=
  match Zod.safeParse Zod.insertUserSchema req_body with
  | inl errors => (Response 400 (JInvalid "Invalid user data" errors), st)
  | inr data =>
      let hashedPassword := bcrypt_hash (str (data !! "password")) 10 in
      let '(user, st1) :=
        Storage.createUser now (<["password" := VStr hashedPassword]> data) st in
      let st2 :=
        createAuditLog now None "create" "user" (user !! "id")
          (Some (VStr ("Created user " ++ str (user !! "email")))) st1 in
      (Response 201 (JObject (omitPassword user)), st2)
  end.

(** [bcrypt.hash] rejects a password that is not a string: the handler
    throws before any write. *)
Definition patch_user (now : Z) (id : string) (req_body : object) (st : store)
    : response * store :=
  let hashed : option object :=
    match req_body !! "password" with
    | Some (VStr password) =>
        if truthy (Some (VStr password))
        then Some (<["password" := VStr (bcrypt_hash password 10)]> req_body)
        else Some req_body
    | v => if truthy v then None else Some req_body
    end in
  match hashed with
  | None => (Response 500 ErrorPage, st)
  | Some updateData =>
      match Storage.updateUser now id updateData st with
      | (None, st1) => (Response 404 (JMessage "User not found"), st1)
      | (Some user, st1) =>
          let st2 :=
            createAuditLog now None "update" "user" (user !! "id")
              (Some (VStr ("Updated user " ++ str (user !! "email")))) st1 in
          (Response 200 (JObject (omitPassword user)), st2)
      end
  end.

Definition delete_user (now : Z) (id : string) (st : store) : response * store :=
  let st1 := snd (Storage.deleteUser id st) in
  let st2 :=
    createAuditLog now None "delete" "user" (Some (VStr id)) (Some (VStr "Deleted user")) st1 in
  (Response 204 NoBody, st2).

End Users.

(** *** Employees *)

Definition post_employees (now : Z) (req_body : object) (st : store) : response * store :=
  match Zod.safeParse Zod.insertEmployeeSchema req_body with
  | inl errors => (Response 400 (JInvalid "Invalid employee data" errors), st)
  | inr data =>
      let '(employee, st1) := Storage.createEmployee now data st in
      let st2 :=
        createAuditLog now None "create" "employee" (employee !! "id")
          (Some (VStr ("Created employee " ++ str (employee !! "firstName") ++ " "
                         ++ str (employee !! "lastName")))) st1 in
      (Response 201 (JObject employee), st2)
  end.

Definition patch_employee (now : Z) (id : string) (req_body : object) (st : store)
    : response * store :=
  match Storage.updateEmployee now id req_body st with
  | (None, st1) => (Response 404 (JMessage "Employee not found"), st1)
  | (Some employee, st1) => (Response 200 (JObject employee), st1)
  end.

Definition delete_employee (id : string) (st : store) : response * store :=
  (Response 204 NoBody, snd (Storage.deleteEmployee id st)).

(** *** Workflow templates *)

Definition delete_template (id : string) (st : store) : response * store :=
  let st1 := snd (Storage.deleteTemplateStepsByTemplateId id st) in
  let st2 := snd (Storage.deleteWorkflowTemplate id st1) in
  (Response 204 NoBody, st2).

(** *** Workflows *)

(** [{ k: v, ...o }] where [v] may be [undefined] *)
Definition prop (k : string) (v : option value) (o : object) : object :=
  match v with
  | Some x => <[k := x]> o
  | None => o
  end.

(** The argument of [storage.createWorkflowStep] in the cloning loop *)
Definition cloned (workflow templateStep : object) : object :=
  prop "workflowId" (workflow !! "id")
    (prop "templateStepId" (templateStep !! "id")
      (prop "name" (templateStep !! "name")
        (prop "description" (templateStep !! "description")
          (prop "stepOrder" (templateStep !! "stepOrder")
            (<["status" := VStr "pending"]>
              (prop "assigneeId" (templateStep !! "assigneeId")
                (<["dueDate" := VNull]>
                  (<["startedAt" := VNull]>
                    (<["completedAt" := VNull]>
                      (<["completedBy" := VNull]>
                        (<["notes" := VNull]>
                          (<["metadata" := VNull]> ∅)))))))))))).

Definition post_workflows (now : Z) (req_body : object) (st : store) : response * store :=
  match Zod.safeParse Zod.insertWorkflowSchema req_body with
  | inl errors => (Response 400 (JInvalid "Invalid workflow data" errors), st)
  | inr data =>
      let '(workflow, st1) := Storage.createWorkflow now data st in
      let st2 :=
        match data !! "templateId" with
        | Some (VStr templateId) =>
            if truthy (Some (VStr templateId)) then
              foldl (λ s templateStep,
                       snd (Storage.createWorkflowStep now (cloned workflow templateStep) s))
                    st1 (Storage.getTemplateSteps templateId st1)
            else st1
        | _ => st1
        end in
      let st3 :=
        createAuditLog now None "create" "workflow" (workflow !! "id")
          (Some (VStr ("Created workflow " ++ str (workflow !! "name")))) st2 in
      (Response 201 (JObject workflow), st3)
  end.

Definition delete_workflow (id : string) (st : store) : response * store :=
  (Response 204 NoBody, snd (Storage.deleteWorkflow id st)).

(** *** Workflow steps and the progress of their workflow *)

Definition completedSteps (allSteps : list object) : nat :=
  length (List.filter (λ s, is_str (s !! "status") "completed") allSteps).

(** [Math.round((completedSteps / allSteps.length) * 100)] *)
Definition progress (allSteps : list object) : spec_float :=
  Number.round
    (Number.mul
       (Number.div (Number.of_nat (completedSteps allSteps))
                   (Number.of_nat (length allSteps)))
       (Number.of_Z 100)).

Definition workflowUpdate (now : Z) (allSteps : list object) : object :=
  let progress := progress allSteps in
  let workflowUpdate : object := {["progress" := VNum progress]} in
  if Number.strict_eq progress (Number.of_Z 100) then
    <["completedAt" := VDate now]> (<["status" := VStr "completed"]> workflowUpdate)
  else if Number.gt progress (Number.of_Z 0) then
    <["status" := VStr "in_progress"]> workflowUpdate
  else workflowUpdate.

(** The body of [if (req.body.status === "completed" && step.workflowId)] *)
Definition aggregate (now : Z) (workflowId : string) (st : store) : store :=
  let allSteps := Storage.getWorkflowSteps workflowId st in
  snd (Storage.updateWorkflow now workflowId (workflowUpdate now allSteps) st).

Definition patch_workflow_step (now : Z) (id : string) (req_body : object) (st : store)
    : response * store :=
  match Storage.updateWorkflowStep now id req_body st with
  | (None, st1) => (Response 404 (JMessage "Workflow step not found"), st1)
  | (Some step, st1) =>
      let st2 :=
        match step !! "workflowId" with
        | Some (VStr workflowId) =>
            if is_str (req_body !! "status") "completed"
               && truthy (Some (VStr workflowId))
            then aggregate now workflowId st1
            else st1
        | _ => st1
        end in
      (Response 200 (JObject step), st2)
  end.

End Routes.

(** ** Sample data *)

Module Sample.

Definition uuid (n : nat) : string := "uuid-" ++ pretty n.

Definition workflow (id status : string) (progress : Z) : object :=
  Db.inserted Schema.workflows id 0
    (<["templateId" := VStr "t1"]>
     (<["employeeId" := VStr "e1"]>
      (<["name" := VStr "Onboarding"]>
       (<["type" := VStr "joiner"]>
        (<["status" := VStr status]>
         (<["initiatedBy" := VStr "u1"]>
          (<["progress" := VNum (Number.of_Z progress)]> ∅))))))).

Definition workflowStep (workflowId : string) (status : string) (i : nat) : object :=
  Db.inserted Schema.workflowSteps ("s" ++ pretty i) 0
    (<["workflowId" := VStr workflowId]>
     (<["name" := VStr ("Step " ++ pretty i)]>
      (<["stepOrder" := VNum (Number.of_nat i)]>
       (<["status" := VStr status]> ∅)))).

(** Steps [s1 .. s<total>] of one workflow, the first [completed] of them
    completed and the others pending *)
Definition workflowSteps (workflowId : string) (total completed : nat) : list object :=
  map (λ i, workflowStep workflowId
              (if (i <=? completed)%nat then "completed" else "pending") i)
      (seq 1 total).

(** A database holding workflow [w1], in the given status, and its steps *)
Definition tracking (status : string) (progress : Z) (total completed : nat) : store :=
  Store [] [] [] [] [workflow "w1" status progress]
        (workflowSteps "w1" total completed) [] [] uuid 0.

Definition templateStep (templateId id name : string) (stepOrder : Z) : object :=
  Db.inserted Schema.templateSteps id 0
    (<["templateId" := VStr templateId]>
     (<["name" := VStr name]>
      (<["stepOrder" := VNum (Number.of_Z stepOrder)]> ∅))).

Definition task (workflowId workflowStepId id : string) : object :=
  Db.inserted Schema.tasks id 0
    (<["workflowStepId" := VStr workflowStepId]>
     (<["workflowId" := VStr workflowId]>
      (<["title" := VStr "Provision laptop"]> ∅))).

Definition template (id : string) : object :=
  Db.inserted Schema.workflowTemplates id 0
    (<["name" := VStr "Standard New Hire Onboarding"]>
     (<["type" := VStr "joiner"]> ∅)).

Definition user (id email password : string) : object :=
  Db.inserted Schema.users id 0
    (<["email" := VStr email]>
     (<["username" := VStr email]>
      (<["password" := VStr password]>
       (<["firstName" := VStr "Jane"]>
        (<["lastName" := VStr "Smith"]> ∅))))).

Definition employee (id : string) : object :=
  Db.inserted Schema.employees id 0
    (<["firstName" := VStr "John"]>
     (<["lastName" := VStr "Doe"]>
      (<["email" := VStr "john.doe@company.com"]>
       (<["jobTitle" := VStr "Software Engineer"]>
        (<["departmentId" := VStr "d1"]> ∅))))).

(** Template [t1] with steps B (order 2) and A (order 1), inserted in
    that order; workflow [w1] of that template with two steps and one
    task; one user and one employee *)
Definition office : store :=
  Store [user "u1" "jane@company.com" "$2a$10$hash"]
        [employee "e1"]
        [template "t1"]
        [templateStep "t1" "ts2" "B" 2; templateStep "t1" "ts1" "A" 1]
        [workflow "w1" "pending" 0]
        (workflowSteps "w1" 2 0)
        [task "w1" "s1" "k1"]
        [] uuid 0.

(** A stand-in for [bcrypt.hash] in the examples *)
Definition bcrypt_hash (password : string) (rounds : nat) : string :=
  "$2a$" ++ pretty rounds ++ "$" ++ password.

(** A valid body for [POST /api/workflows] *)
Definition new_workflow : object :=
  <["templateId" := VStr "t1"]>
  (<["employeeId" := VStr "e1"]>
   (<["name" := VStr "Onboarding: John Doe"]>
    (<["type" := VStr "joiner"]>
     (<["initiatedBy" := VStr "u1"]> ∅)))).

(** A body for [POST /api/users] without [password] *)
Definition new_user_without_password : object :=
  <["email" := VStr "bob@company.com"]>
  (<["username" := VStr "bob"]>
   (<["firstName" := VStr "Bob"]>
    (<["lastName" := VStr "Williams"]> ∅))).

Definition new_user : object :=
  <["password" := VStr "hunter2"]> new_user_without_password.

Definition new_job_title : object := {["jobTitle" := VStr "Staff Engineer"]}.

Definition complete : object := {["status" := VStr "completed"]}.
Definition block : object := {["status" := VStr "blocked"]}.

End Sample.

(** ** The progress the specification prescribes *)

(** [round(100 * completed / total)], integer rounding, half-up, as the
    specification words it; compared below with [Routes.progress]. *)
Definition spec_progress (completed total : Z) : Z :=
  ((2 * (100 * completed) + total) / (2 * total))%Z.

(** [Routes.progress] as a function of the two counts *)
Definition percent (completed total : nat) : spec_float :=
  Number.round
    (Number.mul (Number.div (Number.of_nat completed) (Number.of_nat total))
                (Number.of_Z 100)).


(** A response never shows a password: an object sent has no [password]
    key, and no element of an array sent has one. *)
Definition without_password (j : Routes.json) : Prop :=
  match j with
  | Routes.JObject o => o !! "password" = None
  | Routes.JArray rows => Forall (λ o : object, o !! "password" = None) rows
  | _ => True
  end.

(** ** server/storage.ts: the list, report and task methods *)

Definition with_tasks (rows : list object) (st : store) : store :=
  Store (db_users st) (db_employees st) (db_workflowTemplates st) (db_templateSteps st)
        (db_workflows st) (db_workflowSteps st) rows (db_auditLogs st)
        (db_uuid st) (db_drawn st).

Module Gateway.

(** [if (filters?.k) conditions.push(eq(table.k, filters.k))]: an absent or
    empty filter pushes nothing. *)
Definition condition (column : string) (filter : option string) : list (object → bool) :=
  match filter with
  | Some s => if negb (String.eqb s "") then [Db.eq column s] else []
  | None => []
  end.

(** [and(...conditions)] *)
Definition and_ (conditions : list (object → bool)) (row : object) : bool :=
  forallb (λ c, c row) conditions.

(** [.orderBy(desc(column))]: a stable insertion sort, descending, NULLs
    first *)
Fixpoint place_desc (column : string) (row : object) (sorted : list object) : list object :=
  match sorted with
  | [] => [row]
  | r :: rest =>
      if value_leb (r !! column) (row !! column) then row :: r :: rest
      else r :: place_desc column row rest
  end.

Definition orderByDesc (column : string) (rows : list object) : list object :=
  foldr (place_desc column) [] rows.

(** [if (conditions.length > 0) query.where(and(...conditions)).orderBy(o)
    else query.orderBy(o)] *)
Definition filtered (conditions : list (object → bool))
    (order : list object → list object) (rows : list object) : list object :=
  match conditions with
  | [] => order rows
  | _ => order (Db.select_where (and_ conditions) rows)
  end.

Definition getEmployees (status departmentId : option string) (st : store) : list object :=
  filtered (condition "status" status ++ condition "departmentId" departmentId)%list
           (orderByDesc "createdAt") (db_employees st).

Definition getWorkflowTemplates (type status : option string) (st : store) : list object :=
  filtered (condition "type" type ++ condition "status" status)%list
           (orderByDesc "createdAt") (db_workflowTemplates st).

Definition createWorkflowTemplate (now : Z) (insertTemplate : object) (st : store)
    : object * store :=
  let template := Db.inserted Schema.workflowTemplates (fresh_uuid st) now insertTemplate in
  (template, draw_uuid (with_workflowTemplates (db_workflowTemplates st ++ [template]) st)).

Definition updateWorkflowTemplate (now : Z) (id : string) (templateData : object) (st : store)
    : option object * store :=
  (head (Db.returning Schema.workflowTemplates (Storage.touched now templateData)
           (Db.eq "id" id) (db_workflowTemplates st)),
   with_workflowTemplates
     (Db.update_where Schema.workflowTemplates (Storage.touched now templateData)
        (Db.eq "id" id) (db_workflowTemplates st)) st).

Definition getWorkflows (status type employeeId assignedTo : option string) (st : store)
    : list object :=
  filtered (condition "status" status ++ condition "type" type
            ++ condition "employeeId" employeeId ++ condition "assignedTo" assignedTo)%list
           (orderByDesc "createdAt") (db_workflows st).

Definition getTask (id : string) (st : store) : option object :=
  head (Db.select_where (Db.eq "id" id) (db_tasks st)).

Definition getTasks (workflowId assigneeId status : option string) (st : store) : list object :=
  filtered (condition "workflowId" workflowId ++ condition "assigneeId" assigneeId
            ++ condition "status" status)%list
           (orderByDesc "createdAt") (db_tasks st).

Definition createTask (now : Z) (insertTask : object) (st : store) : object * store :=
  let task := Db.inserted Schema.tasks (fresh_uuid st) now insertTask in
  (task, draw_uuid (with_tasks (db_tasks st ++ [task]) st)).

Definition updateTask (now : Z) (id : string) (taskData : object) (st : store)
    : option object * store :=
  (head (Db.returning Schema.tasks (Storage.touched now taskData) (Db.eq "id" id) (db_tasks st)),
   with_tasks
     (Db.update_where Schema.tasks (Storage.touched now taskData) (Db.eq "id" id) (db_tasks st)) st).

Definition deleteTask (id : string) (st : store) : bool * store :=
  (true, with_tasks (Db.delete_where (Db.eq "id" id) (db_tasks st)) st).

(** [or(eq(tasks.status, 'pending'), eq(tasks.status, 'in_progress'))], and
    the assignee when [userId] is given *)
Definition getPendingTasks (userId : option string) (st : store) : list object :=
  Db.orderBy "dueDate"
    (Db.select_where
       (and_ ((λ row, Db.eq "status" "pending" row || Db.eq "status" "in_progress" row)
              :: condition "assigneeId" userId))
       (db_tasks st)).

(** [.limit(n)] *)
Definition limit (n : nat) (rows : list object) : list object := take n rows.

Definition getAuditLogs (entityType entityId userId : option string) (st : store)
    : list object :=
  filtered (condition "entityType" entityType ++ condition "entityId" entityId
            ++ condition "userId" userId)%list
           (λ rows, limit 100 (orderByDesc "createdAt" rows)) (db_auditLogs st).

(** Equality of two values of a column, as [GROUP BY] sees it: NULLs
    form one group. *)
Definition same_value (a b : option value) : bool :=
  match a, b with
  | (None | Some VNull), (None | Some VNull) => true
  | Some (VBool x), Some (VBool y) => Bool.eqb x y
  | Some (VNum x), Some (VNum y) => Number.strict_eq x y
  | Some (VStr x), Some (VStr y) => String.eqb x y
  | Some (VDate x), Some (VDate y) => (x =? y)%Z
  | Some (VJson x), Some (VJson y) => String.eqb x y
  | _, _ => false
  end.

(** The counts of [SELECT column, count ... GROUP BY column]: one pair per
    value of the column, in the order the values first appear *)
Fixpoint tally (v : option value) (groups : list (option value * nat))
    : list (option value * nat) :=
  match groups with
  | [] => [(v, 1%nat)]
  | (v', n) :: rest =>
      if same_value v' v then (v', S n) :: rest else (v', n) :: tally v rest
  end.

Definition groupBy (column : string) (rows : list object) : list (option value * nat) :=
  foldl (λ groups row, tally (row !! column) groups) [] rows.

(** [sql`${workflows.createdAt} >= ${startDate}`] and [<= endDate]; a
    [Date] argument is always truthy. *)
Definition created_from (startDate : Z) (row : object) : bool :=
  match row !! "createdAt" with
  | Some (VDate t) => (startDate <=? t)%Z
  | _ => false
  end.

Definition created_until (endDate : Z) (row : object) : bool :=
  match row !! "createdAt" with
  | Some (VDate t) => (t <=? endDate)%Z
  | _ => false
  end.

Record metrics : Type := Metrics {
  totalWorkflows : nat;
  completedWorkflows : nat;
  avgCompletionDays : nat;
  byType : list (option value * nat);
  byStatus : list (option value * nat)
}.

Definition getWorkflowMetrics (startDate endDate : option Z) (st : store) : metrics :=
  let conditions :=
    ((match startDate with Some d => [created_from d] | None => [] end)
     ++ (match endDate with Some d => [created_until d] | None => [] end))%list in
  let selected := Db.select_where (and_ conditions) (db_workflows st) in
  Metrics (length selected)
          (length (Db.select_where (Db.eq "status" "completed") selected))
          5
          (groupBy "type" selected)
          (groupBy "status" selected).

End Gateway.

(** ** server/routes.ts: the other handlers *)

Module Api.

Import Routes.

(** [insertWorkflowTemplateSchema], [insertTemplateStepSchema] and
    [insertTaskSchema] of shared/schema.ts *)
Definition insertWorkflowTemplateSchema :=
  Zod.omit ["id"; "createdAt"; "updatedAt"] (Zod.createInsertSchema Schema.workflowTemplates).
Definition insertTemplateStepSchema :=
  Zod.omit ["id"; "createdAt"] (Zod.createInsertSchema Schema.templateSteps).
Definition insertTaskSchema :=
  Zod.omit ["id"; "createdAt"; "updatedAt"] (Zod.createInsertSchema Schema.tasks).

(** A handler of this part sends what the handlers above send, or a row
    with its steps, [{ ...template, steps }], or a workflow with its steps
    and its employee, [{ ...workflow, steps, employee }]. *)
Inductive reply : Type :=
  | Plain (r : response)
  | WithSteps (template : object) (steps : list object)
  | WithStepsAndEmployee (workflow : object) (steps : list object) (employee : option object).

(** *** Employees *)

Definition get_employees (status departmentId : option string) (st : store)
    : response * store :=
  (Response 200 (JArray (Gateway.getEmployees status departmentId st)), st).

Definition get_employee (id : string) (st : store) : response * store :=
  match Storage.getEmployee id st with
  | None => (Response 404 (JMessage "Employee not found"), st)
  | Some employee => (Response 200 (JObject employee), st)
  end.

(** *** Workflow templates *)

Definition get_templates (type status : option string) (st : store) : response * store :=
  (Response 200 (JArray (Gateway.getWorkflowTemplates type status st)), st).

Definition get_template (id : string) (st : store) : reply * store :=
  match Storage.getWorkflowTemplate id st with
  | None => (Plain (Response 404 (JMessage "Template not found")), st)
  | Some template => (WithSteps template (Storage.getTemplateSteps id st), st)
  end.

(** [for (const step of steps)
      await storage.createTemplateStep({ ...step, templateId })] *)
Definition createTemplateSteps (now : Z) (templateId : option value) (steps : list object)
    (st : store) : store :=
  foldl (λ s step, snd (Storage.createTemplateStep now (prop "templateId" templateId step) s))
        st steps.

(** [const { steps, ...templateData } = req.body]: [steps] is [Some] of the
    array when the body has an array there, [None] otherwise. *)
Definition post_templates (now : Z) (templateData : object) (steps : option (list object))
    (st : store) : response * store :=
  match Zod.safeParse insertWorkflowTemplateSchema templateData with
  | inl errors => (Response 400 (JInvalid "Invalid template data" errors), st)
  | inr data =>
      let '(template, st1) := Gateway.createWorkflowTemplate now data st in
      let st2 :=
        match steps with
        | Some steps => createTemplateSteps now (template !! "id") steps st1
        | None => st1
        end in
      let st3 :=
        createAuditLog now None "create" "template" (template !! "id")
          (Some (VStr ("Created template " ++ str (template !! "name")))) st2 in
      (Response 201 (JObject template), st3)
  end.

Definition patch_template (now : Z) (id : string) (templateData : object)
    (steps : option (list object)) (st : store) : response * store :=
  match Gateway.updateWorkflowTemplate now id templateData st with
  | (None, st1) => (Response 404 (JMessage "Template not found"), st1)
  | (Some template, st1) =>
      let st2 :=
        match steps with
        | Some steps =>
            createTemplateSteps now (Some (VStr id)) steps
              (snd (Storage.deleteTemplateStepsByTemplateId id st1))
        | None => st1
        end in
      (Response 200 (JObject template), st2)
  end.

Definition get_template_steps (id : string) (st : store) : response * store :=
  (Response 200 (JArray (Storage.getTemplateSteps id st)), st).

Definition post_template_step (now : Z) (id : string) (req_body : object) (st : store)
    : response * store :=
  match Zod.safeParse insertTemplateStepSchema (<["templateId" := VStr id]> req_body) with
  | inl errors => (Response 400 (JInvalid "Invalid step data" errors), st)
  | inr data =>
      let '(step, st1) := Storage.createTemplateStep now data st in
      (Response 201 (JObject step), st1)
  end.

(** *** Workflows *)

Definition get_workflows (status type employeeId assignedTo : option string) (st : store)
    : response * store :=
  (Response 200 (JArray (Gateway.getWorkflows status type employeeId assignedTo st)), st).

Definition get_workflow (id : string) (st : store) : reply * store :=
  match Storage.getWorkflow id st with
  | None => (Plain (Response 404 (JMessage "Workflow not found")), st)
  | Some workflow =>
      let steps := Storage.getWorkflowSteps id st in
      let employee :=
        match workflow !! "employeeId" with
        | Some (VStr employeeId) => Storage.getEmployee employeeId st
        | _ => None
        end in
      (WithStepsAndEmployee workflow steps employee, st)
  end.

Definition patch_workflow (now : Z) (id : string) (req_body : object) (st : store)
    : response * store :=
  match Storage.updateWorkflow now id req_body st with
  | (None, st1) => (Response 404 (JMessage "Workflow not found"), st1)
  | (Some workflow, st1) => (Response 200 (JObject workflow), st1)
  end.

Definition get_workflow_steps (id : string) (st : store) : response * store :=
  (Response 200 (JArray (Storage.getWorkflowSteps id st)), st).

(** *** Tasks *)

Definition get_tasks (workflowId assigneeId status : option string) (st : store)
    : response * store :=
  (Response 200 (JArray (Gateway.getTasks workflowId assigneeId status st)), st).

Definition get_tasks_pending (userId : option string) (st : store) : response * store :=
  (Response 200 (JArray (Gateway.getPendingTasks userId st)), st).

Definition get_task (id : string) (st : store) : response * store :=
  match Gateway.getTask id st with
  | None => (Response 404 (JMessage "Task not found"), st)
  | Some task => (Response 200 (JObject task), st)
  end.

Definition post_tasks (now : Z) (req_body : object) (st : store) : response * store :=
  match Zod.safeParse insertTaskSchema req_body with
  | inl errors => (Response 400 (JInvalid "Invalid task data" errors), st)
  | inr data =>
      let '(task, st1) := Gateway.createTask now data st in
      (Response 201 (JObject task), st1)
  end.

Definition patch_task (now : Z) (id : string) (req_body : object) (st : store)
    : response * store :=
  match Gateway.updateTask now id req_body st with
  | (None, st1) => (Response 404 (JMessage "Task not found"), st1)
  | (Some task, st1) => (Response 200 (JObject task), st1)
  end.

Definition delete_task (id : string) (st : store) : response * store :=
  (Response 204 NoBody, snd (Gateway.deleteTask id st)).

(** *** Audit logs *)

Definition get_audit_logs (entityType entityId userId : option string) (st : store)
    : response * store :=
  (Response 200 (JArray (Gateway.getAuditLogs entityType entityId userId st)), st).

End Api.

(** ** client: the template builder *)

Module Client.

(** [addStep] of [CreateTemplateDialog]: nothing without a name, else the
    new step is appended with [stepOrder: formData.steps.length + 1] and
    [isRequired: true]. *)
Definition addStep (steps : list object) (newStep : object) : list object :=
  if negb (truthy (newStep !! "name")) then steps
  else (steps ++ [<["isRequired" := VBool true]>
                    (<["stepOrder" := VNum (Number.of_nat (length steps + 1))]> newStep)])%list.

(** [removeStep]: [formData.steps.filter((_, i) => i !== index)] *)
Definition removeStep (steps : list object) (index : nat) : list object :=
  delete index steps.

End Client.

(** The check behind the statements on rounding: for a total, whether
    every count of completed steps gives 100 only when all are completed
    (totals up to 199), gives 100 when all are, and gives more than 0 when
    one is. *)
Definition rounding_ends (total : nat) : bool :=
  forallb (λ completed,
             let p := percent completed total in
             implb (Nat.leb total 199 && Number.strict_eq p (Number.of_Z 100))
                   (Nat.eqb completed total)
             && implb (Nat.eqb completed total) (Number.strict_eq p (Number.of_Z 100))
             && implb (Nat.leb 1 completed) (Number.gt p (Number.of_Z 0)))
          (seq 0 (S total)).

(** * Properties *)

#[global] Instance spec_float_eq_dec : EqDecision spec_float.
Proof. solve_decision. Defined.

#[global] Instance value_eq_dec : EqDecision value.
Proof. solve_decision. Defined.

(** ** Numbers *)

Lemma of_Z_100 : Number.of_Z 100 = S754_finite false 7036874417766400 (-46).
Proof. by vm_compute. Qed.

Lemma of_Z_0 : Number.of_Z 0 = S754_zero false.
Proof. by vm_compute. Qed.

Ltac by_sign p :=
  unfold Number.strict_eq, Number.gt, SFeqb, SFltb, SFcompare;
  destruct p as [[]|[]| |[] ? ?]; intros ?;
  first [reflexivity | discriminate].

Lemma eq_100_gt_0 p :
  Number.strict_eq p (Number.of_Z 100) = true → Number.gt p (Number.of_Z 0) = true.
Proof. rewrite of_Z_100, of_Z_0. by_sign p. Qed.

Lemma eq_0_not_gt_0 p :
  Number.strict_eq p (Number.of_Z 0) = true → Number.gt p (Number.of_Z 0) = false.
Proof. rewrite of_Z_0. by_sign p. Qed.

Lemma eq_0_not_100 p :
  Number.strict_eq p (Number.of_Z 0) = true → Number.strict_eq p (Number.of_Z 100) = false.
Proof. rewrite of_Z_100, of_Z_0. by_sign p. Qed.

Lemma lt_100_not_100 p :
  Number.gt (Number.of_Z 100) p = true → Number.strict_eq p (Number.of_Z 100) = false.
Proof.
  unfold Number.gt, Number.strict_eq, SFltb, SFeqb.
  by destruct (SFcompare p (Number.of_Z 100)) as [[]|].
Qed.

(** ** Queries *)

(** [.set(values)] overwrites the columns [values] defines and keeps the
    rest of the row. *)
Lemma set_lookup (table : list Schema.column) (values row : object) (k : string) :
  Db.set table values row !! k =
    if bool_decide (k ∈ map Schema.col_key table)
    then match values !! k with Some x => Some x | None => row !! k end
    else row !! k.
Proof.
  induction table as [|c table IH]; simpl; [done|].
  destruct (decide (k = Schema.col_key c)) as [->|Hne].
  - rewrite bool_decide_eq_true_2 by apply list_elem_of_here.
    destruct (values !! Schema.col_key c) eqn:Hv.
    + by rewrite lookup_insert_eq.
    + rewrite IH. by case_bool_decide.
  - assert (Hmem : bool_decide (k ∈ Schema.col_key c :: map Schema.col_key table)
                   = bool_decide (k ∈ map Schema.col_key table)).
    { apply bool_decide_ext. rewrite elem_of_cons. split; [by intros [?|?] | by right]. }
    rewrite Hmem.
    destruct (values !! Schema.col_key c); [rewrite lookup_insert_ne by done|]; apply IH.
Qed.

Lemma place_perm column row sorted : Db.place column row sorted ≡ₚ row :: sorted.
Proof.
  induction sorted as [|r rest IH]; simpl; [done|].
  case_match; [done|]. rewrite IH. apply Permutation_swap.
Qed.

Lemma orderBy_perm column rows : Db.orderBy column rows ≡ₚ rows.
Proof.
  induction rows as [|r rows IH]; simpl; [done|].
  rewrite place_perm. by rewrite IH.
Qed.



Lemma set_touched_lookup (table : list Schema.column) (now : Z) (values row : object) (k : string) :
  k ∈ map Schema.col_key table → k ≠ "updatedAt" →
  Db.set table (Storage.touched now values) row !! k =
    match values !! k with Some x => Some x | None => row !! k end.
Proof.
  intros Hk Hne. rewrite set_lookup, bool_decide_eq_true_2 by done.
  unfold Storage.touched. by rewrite lookup_insert_ne.
Qed.

Ltac workflow_column :=
  first [ by apply (bool_decide_unpack _); vm_compute | done ].

(** ** The progress aggregator *)

(** The three shapes of [workflowUpdate] *)
Lemma workflowUpdate_cases (now : Z) (allSteps : list object) :
  let p := Routes.progress allSteps in
  let base : object := {["progress" := VNum p]} in
  (Number.strict_eq p (Number.of_Z 100) = true ∧
   Routes.workflowUpdate now allSteps
     = <["completedAt" := VDate now]> (<["status" := VStr "completed"]> base))
  ∨ (Number.strict_eq p (Number.of_Z 100) = false ∧
     Number.gt p (Number.of_Z 0) = true ∧
     Routes.workflowUpdate now allSteps = <["status" := VStr "in_progress"]> base)
  ∨ (Number.strict_eq p (Number.of_Z 100) = false ∧
     Number.gt p (Number.of_Z 0) = false ∧
     Routes.workflowUpdate now allSteps = base).
Proof.
  intros p base. unfold Routes.workflowUpdate. fold p. fold base.
  destruct (Number.strict_eq p (Number.of_Z 100)); [by left|].
  destruct (Number.gt p (Number.of_Z 0)); [right; by left | right; by right].
Qed.

Ltac progress_clash :=
  try match goal with
      | H : Number.gt (Number.of_Z 100) _ = true |- _ => apply lt_100_not_100 in H
      end;
  try match goal with
      | H : Number.strict_eq _ (Number.of_Z 0) = true |- _ =>
          pose proof (eq_0_not_100 _ H); pose proof (eq_0_not_gt_0 _ H)
      end;
  try congruence.

(** C2. Whenever the aggregator runs, every workflow row with the given id is
    rewritten by [.set] of the update object, and that object: carries the
    recomputed progress; sets status to "completed" exactly when progress is
    100 and stamps [completedAt] exactly then; sets status to "in_progress"
    when 0 < progress < 100; leaves status and [completedAt] as they were
    when progress is 0; and never sets status to "pending". *)
Theorem aggregator_status_follows_progress (now : Z) (workflowId : string) (st : store) :
  let allSteps := Storage.getWorkflowSteps workflowId st in
  let p := Routes.progress allSteps in
  let written := Routes.workflowUpdate now allSteps in
  db_workflows (Routes.aggregate now workflowId st)
    = map (λ w, if Db.eq "id" workflowId w
                then Db.set Schema.workflows (Storage.touched now written) w
                else w)
          (db_workflows st)
  ∧ (written !! "status" = Some (VStr "completed")
       ↔ Number.strict_eq p (Number.of_Z 100) = true)
  ∧ (is_Some (written !! "completedAt")
       ↔ Number.strict_eq p (Number.of_Z 100) = true)
  ∧ written !! "status" ≠ Some (VStr "pending")
  ∧ ∀ w : object,
      let w' := Db.set Schema.workflows (Storage.touched now written) w in
      w' !! "progress" = Some (VNum p)
      ∧ (Number.strict_eq p (Number.of_Z 100) = true →
           w' !! "status" = Some (VStr "completed")
           ∧ w' !! "completedAt" = Some (VDate now))
      ∧ (Number.gt p (Number.of_Z 0) = true → Number.gt (Number.of_Z 100) p = true →
           w' !! "status" = Some (VStr "in_progress")
           ∧ w' !! "completedAt" = w !! "completedAt")
      ∧ (Number.strict_eq p (Number.of_Z 0) = true →
           w' !! "status" = w !! "status"
           ∧ w' !! "completedAt" = w !! "completedAt").
Proof.
  intros allSteps p written.
  split; [reflexivity|].
  destruct (workflowUpdate_cases now allSteps) as [(H100 & Hw)|[(H100 & H0 & Hw)|(H100 & H0 & Hw)]];
    fold p in H100, Hw; try fold p in H0; fold written in Hw;
    (split; [|split; [|split; [|intros w w'; subst w'; split; [|split; [|split]]]]]);
    intros; progress_clash.
  all: rewrite ?set_touched_lookup by workflow_column.
  all: rewrite ?Hw, ?H100.
  all: try (split; intros); progress_clash.
  all: rewrite ?set_touched_lookup by workflow_column.
  all: by simplify_map_eq.
Qed.

(** The three cases, run through the handler: the last of four steps
    completes the workflow; the second of four leaves it in progress at 50;
    the first of 201 rounds to 0 and leaves the status alone. *)
Example completing_the_last_step :
  map (λ w : object, (w !! "progress", w !! "status", w !! "completedAt"))
      (db_workflows (snd (Routes.patch_workflow_step 1000 "s4" Sample.complete
                            (Sample.tracking "in_progress" 75 4 3))))
  = [(Some (VNum (Number.of_Z 100)), Some (VStr "completed"), Some (VDate 1000))].
Proof. by vm_compute. Qed.

Example completing_a_middle_step :
  map (λ w : object, (w !! "progress", w !! "status", w !! "completedAt"))
      (db_workflows (snd (Routes.patch_workflow_step 1000 "s2" Sample.complete
                            (Sample.tracking "pending" 25 4 1))))
  = [(Some (VNum (Number.of_Z 50)), Some (VStr "in_progress"), Some VNull)].
Proof. by vm_compute. Qed.

Example completing_one_of_many :
  map (λ w : object, (w !! "progress", w !! "status", w !! "completedAt"))
      (db_workflows (snd (Routes.patch_workflow_step 1000 "s1" Sample.complete
                            (Sample.tracking "pending" 0 201 0))))
  = [(Some (VNum (Number.of_Z 0)), Some (VStr "pending"), Some VNull)].
Proof. by vm_compute. Qed.

(** ** The step-update handler *)

(** When the step is found, the request says "completed" and the step has a
    workflow, the handler runs the aggregator on that workflow. *)
Lemma patch_workflow_step_aggregates (now : Z) (id : string) (req_body : object)
    (st : store) (step : object) (workflowId : string) :
  fst (Storage.updateWorkflowStep now id req_body st) = Some step →
  step !! "workflowId" = Some (VStr workflowId) →
  workflowId ≠ "" →
  is_str (req_body !! "status") "completed" = true →
  Routes.patch_workflow_step now id req_body st
    = (Routes.Response 200 (Routes.JObject step),
       Routes.aggregate now workflowId (snd (Storage.updateWorkflowStep now id req_body st))).
Proof.
  intros Hstep Hwf Hne Hdone. unfold Routes.patch_workflow_step.
  destruct (Storage.updateWorkflowStep now id req_body st) as [o st1]; simpl in *.
  subst o. rewrite Hwf, Hdone. simpl.
  by rewrite (proj2 (String.eqb_neq workflowId "") Hne).
Qed.




(** C9. A PATCH whose status is not "completed" leaves the workflows table,
    and with it the progress and status of the parent workflow, as it
    was. *)
Theorem other_status_leaves_workflows (now : Z) (id : string) (req_body : object) (st : store) :
  is_str (req_body !! "status") "completed" = false →
  db_workflows (snd (Routes.patch_workflow_step now id req_body st)) = db_workflows st.
Proof.
  intros Hother. unfold Routes.patch_workflow_step, Storage.updateWorkflowStep.
  destruct (head _) as [step|]; simpl; [|done].
  rewrite Hother. simpl. by repeat case_match.
Qed.

Lemma other_status_leaves_workflows_witness :
  db_workflows (snd (Routes.patch_workflow_step 1000 "s2" Sample.block
                       (Sample.tracking "in_progress" 25 4 1)))
  = db_workflows (Sample.tracking "in_progress" 25 4 1).
Proof.
  apply (other_status_leaves_workflows 1000 "s2" Sample.block
           (Sample.tracking "in_progress" 25 4 1)).
  by vm_compute.
Defined.

(** Blocking a step that was completed before does not lower the progress
    either. *)
Example blocking_a_completed_step :
  (fst (Routes.patch_workflow_step 1000 "s1" Sample.block
          (Sample.tracking "in_progress" 25 4 1))).(Routes.status) = 200%nat
  ∧ map (λ w : object, (w !! "progress", w !! "status"))
        (db_workflows (snd (Routes.patch_workflow_step 1000 "s1" Sample.block
                              (Sample.tracking "in_progress" 25 4 1))))
    = [(Some (VNum (Number.of_Z 25)), Some (VStr "in_progress"))].
Proof. split; by vm_compute. Qed.

(** C10 (as amended). A status the aggregator writes is "completed" or
    "in_progress", whatever the status of the workflow was; it writes one
    exactly when the recomputed progress is above 0, and the row it
    rewrites then carries that status in place of the earlier one, be it
    "blocked" or "cancelled". *)
Theorem aggregator_writes_only_two_statuses (now : Z) (allSteps : list object) :
  let p := Routes.progress allSteps in
  let written := Routes.workflowUpdate now allSteps in
  (∀ v, written !! "status" = Some v → v = VStr "completed" ∨ v = VStr "in_progress")
  ∧ (is_Some (written !! "status") ↔ Number.gt p (Number.of_Z 0) = true)
  ∧ ∀ w : object,
      Number.gt p (Number.of_Z 0) = true →
      let w' := Db.set Schema.workflows (Storage.touched now written) w in
      w' !! "status" = Some (VStr "completed") ∨ w' !! "status" = Some (VStr "in_progress").
Proof.
  intros p written.
  assert (Hstatus : ∀ (values w : object),
            Db.set Schema.workflows (Storage.touched now values) w !! "status"
            = match values !! "status" with Some x => Some x | None => w !! "status" end).
  { intros. by rewrite set_touched_lookup by workflow_column. }
  destruct (workflowUpdate_cases now allSteps) as [(H100 & Hw)|[(H100 & H0 & Hw)|(H100 & H0 & Hw)]];
    fold p in H100, Hw; try fold p in H0; fold written in Hw;
    try (pose proof (eq_100_gt_0 _ H100) as H0);
    rewrite Hw, H0; (split; [|split]).
  - intros v. rewrite lookup_insert_ne, lookup_insert_eq by done. intros [= <-]. by left.
  - by rewrite lookup_insert_ne, lookup_insert_eq by done.
  - intros w _ w'. subst w'. rewrite Hstatus.
    rewrite lookup_insert_ne, lookup_insert_eq by done. by left.
  - intros v. rewrite lookup_insert_eq. intros [= <-]. by right.
  - by rewrite lookup_insert_eq.
  - intros w _ w'. subst w'. rewrite Hstatus, lookup_insert_eq. by right.
  - intros v. by rewrite lookup_singleton_ne.
  - rewrite lookup_singleton_ne by done. split; [by intros [? ?] | done].
  - done.
Qed.

(** Against C10 as stated: a blocked workflow of 201 steps, none completed.
    Completing its first step succeeds, the recomputed progress,
    [Math.round(1 / 201 * 100)], is 0, no status is written, and the
    workflow is still "blocked". *)
Lemma blocked_workflow_of_201_steps_stays_blocked :
  let st := Sample.tracking "blocked" 0 201 0 in
  let patched := Routes.patch_workflow_step 1000 "s1" Sample.complete st in
  map (λ w : object, w !! "status") (db_workflows st) = [Some (VStr "blocked")]
  ∧ length (Storage.getWorkflowSteps "w1" st) = 201%nat
  ∧ (fst patched).(Routes.status) = 200%nat
  ∧ map (λ s : object, s !! "status")
        (Db.select_where (Db.eq "id" "s1") (db_workflowSteps (snd patched)))
    = [Some (VStr "completed")]
  ∧ Routes.workflowUpdate 1000 (Storage.getWorkflowSteps "w1" (snd patched)) !! "status" = None
  ∧ map (λ w : object, (w !! "progress", w !! "status")) (db_workflows (snd patched))
    = [(Some (VNum (Number.of_Z 0)), Some (VStr "blocked"))].
Proof. cbv zeta. repeat apply conj; by vm_compute. Qed.

(** Completing a step of a blocked workflow of four steps puts it back in
    progress, and completing the last step of a cancelled one completes
    it. *)
Example blocked_workflow_resumes :
  map (λ w : object, (w !! "progress", w !! "status"))
      (db_workflows (snd (Routes.patch_workflow_step 1000 "s2" Sample.complete
                            (Sample.tracking "blocked" 25 4 1))))
  = [(Some (VNum (Number.of_Z 50)), Some (VStr "in_progress"))].
Proof. by vm_compute. Qed.

Example cancelled_workflow_completes :
  map (λ w : object, (w !! "progress", w !! "status"))
      (db_workflows (snd (Routes.patch_workflow_step 1000 "s4" Sample.complete
                            (Sample.tracking "cancelled" 75 4 3))))
  = [(Some (VNum (Number.of_Z 100)), Some (VStr "completed"))].
Proof. by vm_compute. Qed.

(** ** Progress against the specification's formula *)

Lemma progress_is_percent (allSteps : list object) :
  Routes.progress allSteps = percent (Routes.completedSteps allSteps) (length allSteps).
Proof. reflexivity. Qed.

(** Up to 100 steps the computed progress is the prescribed one, except
    for 23 of 40 and 46 of 80. *)
Lemma percent_up_to_100 (completed total : nat) :
  (1 ≤ total ≤ 100)%nat → (completed ≤ total)%nat →
  (completed, total) ≠ (23, 40)%nat → (completed, total) ≠ (46, 80)%nat →
  percent completed total
    = Number.of_Z (spec_progress (Z.of_nat completed) (Z.of_nat total)).
Proof.
  intros Ht Hc H40 H80.
  assert (Hall :
    Forall (λ n, Forall (λ k,
      (k, n) ≠ (23, 40)%nat → (k, n) ≠ (46, 80)%nat →
      percent k n = Number.of_Z (spec_progress (Z.of_nat k) (Z.of_nat n)))
      (seq 0 (S n))) (seq 1 100)).
  { apply (bool_decide_unpack _). by vm_compute. }
  rewrite Forall_forall in Hall.
  specialize (Hall total). rewrite Forall_forall in Hall.
  apply Hall; [apply elem_of_seq; lia | apply elem_of_seq; lia | done | done].
Qed.

(** C1 (where the code departs from it). A workflow of 40 steps with 22
    completed: the PATCH that completes the 23rd stores progress 57, where
    round(100 * 23 / 40) = round(57.5) is 58.  The quotient 23/40 is not
    a binary fraction; rounded to a double and multiplied by 100 it falls
    just below 57.5. *)
Theorem progress_of_23_completed_of_40 :
  let st := Sample.tracking "in_progress" 55 40 22 in
  length (Storage.getWorkflowSteps "w1" st) = 40%nat
  ∧ Routes.completedSteps (Storage.getWorkflowSteps "w1" st) = 22%nat
  ∧ map (λ s : object, s !! "status") (Db.select_where (Db.eq "id" "s23") (db_workflowSteps st))
    = [Some (VStr "pending")]
  ∧ (fst (Routes.patch_workflow_step 1000 "s23" Sample.complete st)).(Routes.status) = 200%nat
  ∧ map (λ w : object, w !! "progress")
        (db_workflows (snd (Routes.patch_workflow_step 1000 "s23" Sample.complete st)))
    = [Some (VNum (Number.of_Z 57))]
  ∧ spec_progress 23 40 = 58%Z
  ∧ Number.mul (Number.div (Number.of_Z 23) (Number.of_Z 40)) (Number.of_Z 100)
    = S754_finite false 8092405580431359 (-47)
  ∧ (8092405580431359 < 115 * 2 ^ 46)%Z.
Proof. cbv zeta. repeat apply conj; by vm_compute. Qed.

(** ** Deleting *)

Lemma select_deleted (p : object → bool) (rows : list object) :
  Db.select_where p (Db.delete_where p rows) = [].
Proof.
  unfold Db.select_where, Db.delete_where.
  induction rows as [|r rows IH]; simpl; [done|].
  destruct (p r) eqn:Hp; simpl; [done|]. by rewrite Hp.
Qed.

(** C5. Deleting a workflow template leaves the template steps table as it
    was, so the steps of the deleted template are still there; deleting a
    workflow, in the storage layer and through [DELETE /api/workflows/:id],
    leaves the workflow steps and the tasks tables as they were.  The
    deleted template or workflow itself is gone. *)
Theorem delete_does_not_cascade (id : string) (st : store) :
  (db_templateSteps (snd (Storage.deleteWorkflowTemplate id st)) = db_templateSteps st
   ∧ Storage.getTemplateSteps id (snd (Storage.deleteWorkflowTemplate id st))
     = Storage.getTemplateSteps id st
   ∧ Storage.getWorkflowTemplate id (snd (Storage.deleteWorkflowTemplate id st)) = None)
  ∧ (db_workflowSteps (snd (Storage.deleteWorkflow id st)) = db_workflowSteps st
     ∧ db_tasks (snd (Storage.deleteWorkflow id st)) = db_tasks st
     ∧ Storage.getWorkflow id (snd (Storage.deleteWorkflow id st)) = None)
  ∧ (Routes.delete_workflow id st = (Routes.Response 204 Routes.NoBody,
                                      snd (Storage.deleteWorkflow id st))
     ∧ Storage.getWorkflowSteps id (snd (Routes.delete_workflow id st))
       = Storage.getWorkflowSteps id st).
Proof.
  repeat apply conj; try reflexivity.
  - unfold Storage.getWorkflowTemplate, Storage.deleteWorkflowTemplate. simpl.
    by rewrite select_deleted.
  - unfold Storage.getWorkflow, Storage.deleteWorkflow. simpl.
    by rewrite select_deleted.
Qed.

(** The caller that deletes the steps separately first is the handler of
    [DELETE /api/templates/:id]: after it neither the template nor any of
    its steps is left. *)
Lemma delete_template_deletes_the_steps_first (id : string) (st : store) :
  snd (Routes.delete_template id st)
    = snd (Storage.deleteWorkflowTemplate id
             (snd (Storage.deleteTemplateStepsByTemplateId id st)))
  ∧ Storage.getTemplateSteps id (snd (Routes.delete_template id st)) = []
  ∧ Storage.getWorkflowTemplate id (snd (Routes.delete_template id st)) = None.
Proof.
  repeat apply conj; [reflexivity| |].
  - unfold Storage.getTemplateSteps, Routes.delete_template. simpl.
    by rewrite select_deleted.
  - unfold Storage.getWorkflowTemplate, Routes.delete_template. simpl.
    by rewrite select_deleted.
Qed.

Example orphans_after_delete :
  let st := snd (Routes.delete_workflow "w1" Sample.office) in
  length (db_workflows st) = 0%nat
  ∧ map (λ s : object, s !! "id") (Storage.getWorkflowSteps "w1" st)
    = [Some (VStr "s1"); Some (VStr "s2")]
  ∧ map (λ t : object, t !! "id") (db_tasks st) = [Some (VStr "k1")]
  ∧ map (λ s : object, s !! "name")
        (Storage.getTemplateSteps "t1" (snd (Storage.deleteWorkflowTemplate "t1" Sample.office)))
    = [Some (VStr "A"); Some (VStr "B")].
Proof. cbv zeta. repeat apply conj; by vm_compute. Qed.

(** ** Users *)

Lemma omitPassword_lookup (user : object) : Routes.omitPassword user !! "password" = None.
Proof. apply lookup_delete_eq. Qed.

Lemma omitPassword_keeps (user : object) (k : string) :
  k ≠ "password" → Routes.omitPassword user !! k = user !! k.
Proof. intros Hk. by apply lookup_delete_ne. Qed.

(** C7. No response of the four user routes that return users (the list,
    the single fetch, create and update) shows a [password] key, whatever
    the request and the database. *)
Theorem user_responses_without_password (bcrypt_hash : string → nat → string)
    (now : Z) (id : string) (req_body : object) (st : store) :
  without_password (fst (Routes.get_users st)).(Routes.body)
  ∧ without_password (fst (Routes.get_user id st)).(Routes.body)
  ∧ without_password (fst (Routes.post_users bcrypt_hash now req_body st)).(Routes.body)
  ∧ without_password (fst (Routes.patch_user bcrypt_hash now id req_body st)).(Routes.body).
Proof.
  repeat apply conj.
  - simpl. apply Forall_fmap, Forall_forall. intros user _. apply omitPassword_lookup.
  - unfold Routes.get_user. destruct (Storage.getUser id st); simpl; [|done].
    apply omitPassword_lookup.
  - unfold Routes.post_users. destruct (Zod.safeParse _ _); simpl; [done|].
    apply omitPassword_lookup.
  - unfold Routes.patch_user.
    repeat case_match; simpl; try done; apply omitPassword_lookup.
Qed.

(** The stored rows do carry the password (hashed on create and on update),
    and the responses carry the other columns. *)
Example user_responses :
  let created := Routes.post_users Sample.bcrypt_hash 1000 Sample.new_user Sample.office in
  let fetched := Routes.get_user "u1" Sample.office in
  map (λ u : object, u !! "password") (db_users (snd created))
    = [Some (VStr "$2a$10$hash"); Some (VStr "$2a$10$hunter2")]
  ∧ (fst created).(Routes.status) = 201%nat
  ∧ match (fst created).(Routes.body) with
    | Routes.JObject o => (o !! "email", o !! "password", o !! "role")
    | _ => (None, None, None)
    end = (Some (VStr "bob@company.com"), None, Some (VStr "viewer"))
  ∧ match (fst fetched).(Routes.body) with
    | Routes.JObject o => (o !! "email", o !! "password")
    | _ => (None, None)
    end = (Some (VStr "jane@company.com"), None).
Proof. cbv zeta. repeat apply conj; by vm_compute. Qed.

(** A required property that is missing raises its "Required" issue. *)
Lemma safeParse_required (schema : list Zod.field) (f : Zod.field) (req_body : object) :
  f ∈ schema → Zod.optional f = false → req_body !! Zod.key f = None →
  ∃ errors, Zod.safeParse schema req_body = inl errors
            ∧ Zod.Issue "invalid_type" [Zod.key f] "Required" ∈ errors.
Proof.
  intros Hf Hreq Hmiss. unfold Zod.safeParse.
  assert (Hin : Zod.Issue "invalid_type" [Zod.key f] "Required"
                ∈ omap (λ f, Zod.check f req_body) schema).
  { apply list_elem_of_omap. exists f. split; [done|].
    unfold Zod.check. by rewrite Hmiss, Hreq. }
  destruct (omap _ schema) as [|e errors]; [by apply elem_of_nil in Hin|].
  by eexists.
Qed.

Lemma password_is_required : Zod.Field "password" Schema.text false false ∈ Zod.insertUserSchema.
Proof. apply list_elem_of_In. vm_compute. tauto. Qed.

(** C8. [POST /api/users] with a body that has no [password] answers 400
    with the validation errors, among them the issue on the path
    [password], and returns the database as it was: no user row and no
    audit row is written. *)
Theorem user_without_password_rejected (bcrypt_hash : string → nat → string)
    (now : Z) (req_body : object) (st : store) :
  req_body !! "password" = None →
  ∃ errors,
    Routes.post_users bcrypt_hash now req_body st
      = (Routes.Response 400 (Routes.JInvalid "Invalid user data" errors), st)
    ∧ Zod.Issue "invalid_type" ["password"] "Required" ∈ errors.
Proof.
  intros Hmiss.
  destruct (safeParse_required Zod.insertUserSchema _ req_body password_is_required
              eq_refl Hmiss) as (errors & Hparse & Hin).
  exists errors. split; [|done].
  unfold Routes.post_users. by rewrite Hparse.
Qed.

Lemma user_without_password_rejected_witness :
  ∃ errors,
    Routes.post_users Sample.bcrypt_hash 1000 Sample.new_user_without_password Sample.office
      = (Routes.Response 400 (Routes.JInvalid "Invalid user data" errors), Sample.office)
    ∧ Zod.Issue "invalid_type" ["password"] "Required" ∈ errors.
Proof.
  apply (user_without_password_rejected Sample.bcrypt_hash 1000
           Sample.new_user_without_password Sample.office).
  by vm_compute.
Defined.

Example only_the_password_is_missing :
  Zod.safeParse Zod.insertUserSchema Sample.new_user_without_password
  = inl [Zod.Issue "invalid_type" ["password"] "Required"].
Proof. by vm_compute. Qed.

(** ** Audit logging *)

Arguments Db.inserted : simpl never.
Arguments Db.set : simpl never.
Arguments Db.orderBy : simpl never.

(** A property the values define is stored as given. *)
Lemma inserted_lookup (table : list Schema.column) (uuid : string) (now : Z)
    (values : object) (k : string) (v : value) :
  k ∈ map Schema.col_key table → values !! k = Some v →
  Db.inserted table uuid now values !! k = Some v.
Proof.
  intros Hk Hv. unfold Db.inserted.
  induction table as [|c table IH]; simpl in *; [by apply elem_of_nil in Hk|].
  destruct (decide (k = Schema.col_key c)) as [->|Hne].
  - by rewrite lookup_insert_eq, Hv.
  - rewrite lookup_insert_ne by done. apply IH.
    apply elem_of_cons in Hk as [?|?]; [done|done].
Qed.

(** One call of [createAuditLog] appends one row and touches no other
    table. *)
Lemma createAuditLog_appends (now : Z) (userId : option value) (action entityType : string)
    (entityId description : option value) (st : store) :
  let st' := Routes.createAuditLog now userId action entityType entityId description st in
  (∃ log : object,
    db_auditLogs st' = (db_auditLogs st ++ [log])%list
    ∧ log !! "action" = Some (VStr action)
    ∧ log !! "entityType" = Some (VStr entityType)
    ∧ log !! "entityId" = Some (Routes.or_null entityId)
    ∧ log !! "description" = Some (Routes.or_null description))
  ∧ db_users st' = db_users st
  ∧ db_employees st' = db_employees st
  ∧ db_workflows st' = db_workflows st
  ∧ db_workflowSteps st' = db_workflowSteps st.
Proof.
  split; [|done].
  eexists. split; [reflexivity|].
  repeat apply conj; (apply inserted_lookup; [workflow_column | by simplify_map_eq]).
Qed.

Lemma createAuditLog_length (now : Z) (userId : option value) (action entityType : string)
    (entityId description : option value) (st : store) :
  length (db_auditLogs (Routes.createAuditLog now userId action entityType entityId
                          description st))
  = S (length (db_auditLogs st)).
Proof.
  destruct (createAuditLog_appends now userId action entityType entityId description st)
    as [(log & -> & _) _].
  rewrite length_app. simpl. lia.
Qed.

(** The user routes do log: create, update (of a user that exists) and
    delete each append one row. *)
Lemma user_routes_are_audited (bcrypt_hash : string → nat → string)
    (now : Z) (id : string) (req_body : object) (st : store) :
  ((fst (Routes.post_users bcrypt_hash now req_body st)).(Routes.status) = 201%nat →
   length (db_auditLogs (snd (Routes.post_users bcrypt_hash now req_body st)))
     = S (length (db_auditLogs st)))
  ∧ ((fst (Routes.patch_user bcrypt_hash now id req_body st)).(Routes.status) = 200%nat →
     length (db_auditLogs (snd (Routes.patch_user bcrypt_hash now id req_body st)))
       = S (length (db_auditLogs st)))
  ∧ length (db_auditLogs (snd (Routes.delete_user now id st)))
      = S (length (db_auditLogs st)).
Proof.
  repeat apply conj.
  - unfold Routes.post_users. destruct (Zod.safeParse _ _); [done|].
    intros _. unfold Storage.createUser. cbn [snd]. by rewrite createAuditLog_length.
  - unfold Routes.patch_user, Storage.updateUser.
    destruct (match req_body !! "password" with Some _ => _ | None => _ end); [|done].
    destruct (head _); [|done].
    intros _. cbn [snd]. by rewrite createAuditLog_length.
  - unfold Routes.delete_user. cbn [snd]. by rewrite createAuditLog_length.
Qed.

(** The employee routes log the create only: an update and a delete leave
    the audit log as it was. *)
Lemma employee_update_and_delete_unaudited (now : Z) (id : string) (req_body : object)
    (st : store) :
  db_auditLogs (snd (Routes.patch_employee now id req_body st)) = db_auditLogs st
  ∧ db_auditLogs (snd (Routes.delete_employee id st)) = db_auditLogs st.
Proof.
  split; [|reflexivity].
  unfold Routes.patch_employee, Storage.updateEmployee.
  by destruct (head _).
Qed.

(** C4 (where the code departs from it). Employee [e1] exists and the
    audit log is empty.  [PATCH /api/employees/e1] answers 200 and changes
    the job title, [DELETE /api/employees/e1] answers 204 and removes the
    row, and after either the audit log is still empty; the same update and
    delete of user [u1] each leave one row in it. *)
Theorem employee_update_leaves_no_audit_row :
  let patched := Routes.patch_employee 1000 "e1" Sample.new_job_title Sample.office in
  let deleted := Routes.delete_employee "e1" Sample.office in
  length (db_auditLogs Sample.office) = 0%nat
  ∧ (fst patched).(Routes.status) = 200%nat
  ∧ map (λ e : object, e !! "jobTitle") (db_employees (snd patched))
    = [Some (VStr "Staff Engineer")]
  ∧ length (db_auditLogs (snd patched)) = 0%nat
  ∧ (fst deleted).(Routes.status) = 204%nat
  ∧ length (db_employees (snd deleted)) = 0%nat
  ∧ length (db_auditLogs (snd deleted)) = 0%nat
  ∧ map (λ l : object, (l !! "action", l !! "entityType", l !! "entityId"))
        (db_auditLogs (snd (Routes.patch_user Sample.bcrypt_hash 1000 "u1"
                              Sample.new_job_title Sample.office)))
    = [(Some (VStr "update"), Some (VStr "user"), Some (VStr "u1"))]
  ∧ map (λ l : object, (l !! "action", l !! "entityType", l !! "entityId"))
        (db_auditLogs (snd (Routes.delete_user 1000 "u1" Sample.office)))
    = [(Some (VStr "delete"), Some (VStr "user"), Some (VStr "u1"))].
Proof. cbv zeta. repeat apply conj; by vm_compute. Qed.

(** ** Creating a workflow from a template *)

Lemma safeParse_success (schema : list Zod.field) (req_body : object) :
  Zod.success (Zod.safeParse schema req_body) = true →
  Zod.safeParse schema req_body = inr (Zod.strip schema req_body).
Proof. unfold Zod.safeParse. by destruct (omap _ schema). Qed.

(** The parsed data has the properties of the schema that the body
    defines. *)
Lemma strip_lookup (schema : list Zod.field) (req_body : object) (k : string) :
  k ∈ map Zod.key schema → Zod.strip schema req_body !! k = req_body !! k.
Proof.
  intros Hk. unfold Zod.strip.
  induction schema as [|f schema IH]; simpl in *; [by apply elem_of_nil in Hk|].
  destruct (decide (k = Zod.key f)) as [->|Hne].
  - destruct (req_body !! Zod.key f) eqn:Hv.
    + by rewrite lookup_insert_eq.
    + destruct (decide (Zod.key f ∈ map Zod.key schema)) as [Hin|Hout].
      * by rewrite IH.
      * clear IH Hk. induction schema as [|g schema IH]; simpl in *; [done|].
        apply not_elem_of_cons in Hout as [Hg Hout].
        destruct (req_body !! Zod.key g); [rewrite lookup_insert_ne by done|]; by apply IH.
  - apply elem_of_cons in Hk as [?|Hk]; [done|].
    destruct (req_body !! Zod.key f); [rewrite lookup_insert_ne by done|]; by apply IH.
Qed.

Lemma prop_lookup (k k' : string) (v : option value) (o : object) :
  Routes.prop k' v o !! k = if decide (k' = k) then (match v with Some x => Some x | None => o !! k end) else o !! k.
Proof.
  unfold Routes.prop. destruct v; case_decide; simplify_map_eq; done.
Qed.

(** What the cloning loop passes on from the template step *)
Lemma cloned_lookup (workflow templateStep : object) :
  let values := Routes.cloned workflow templateStep in
  values !! "workflowId" = workflow !! "id"
  ∧ values !! "templateStepId" = templateStep !! "id"
  ∧ values !! "name" = templateStep !! "name"
  ∧ values !! "stepOrder" = templateStep !! "stepOrder"
  ∧ values !! "status" = Some (VStr "pending").
Proof.
  unfold Routes.cloned. cbv zeta.
  repeat apply conj.
  all: repeat (rewrite prop_lookup; case_decide; try done).
  all: repeat first [rewrite lookup_insert_ne by done | rewrite prop_lookup; case_decide; try done].
  all: try (by rewrite lookup_insert_eq).
  all: try (rewrite lookup_empty; by case_match).
Qed.

(** The loop appends one row per template step, in order, and touches no
    other table. *)
Lemma clone_loop (now : Z) (workflow : object) (templateSteps : list object) (s : store) :
  let s' :=
    foldl (λ s templateStep,
             snd (Storage.createWorkflowStep now (Routes.cloned workflow templateStep) s))
          s templateSteps in
  (∃ created,
     db_workflowSteps s' = (db_workflowSteps s ++ created)%list
     ∧ Forall2 (λ templateStep step,
                  ∃ uuid, step = Db.inserted Schema.workflowSteps uuid now
                                   (Routes.cloned workflow templateStep))
               templateSteps created)
  ∧ db_templateSteps s' = db_templateSteps s
  ∧ db_workflows s' = db_workflows s
  ∧ db_auditLogs s' = db_auditLogs s.
Proof.
  revert s. induction templateSteps as [|ts templateSteps IH]; intros s; cbn [foldl].
  - split; [|done]. exists []. by rewrite app_nil_r.
  - destruct (IH (snd (Storage.createWorkflowStep now (Routes.cloned workflow ts) s)))
      as ((created & Hsteps & Hall) & Hts & Hwf & Hlog).
    split; [|by rewrite Hts, Hwf, Hlog].
    eexists (_ :: created). split.
    + rewrite Hsteps. unfold Storage.createWorkflowStep. cbn [snd].
      change (db_workflowSteps (draw_uuid (with_workflowSteps ?rows s))) with rows.
      by rewrite <- app_assoc.
    + constructor; [by eexists | done].
Qed.





(** The template of the specification's example: steps A (order 1) and B
    (order 2). *)
Example steps_A_and_B :
  let st := snd (Routes.post_workflows 1000 Sample.new_workflow Sample.office) in
  map (λ s : object, (s !! "name", s !! "stepOrder"))
      (Storage.getTemplateSteps "t1" Sample.office)
    = [(Some (VStr "A"), Some (VNum (Number.of_Z 1)));
       (Some (VStr "B"), Some (VNum (Number.of_Z 2)))]
  ∧ map (λ s : object, (s !! "name", s !! "stepOrder", s !! "status", s !! "templateStepId"))
        (Storage.getWorkflowSteps "uuid-0" st)
    = [(Some (VStr "A"), Some (VNum (Number.of_Z 1)), Some (VStr "pending"), Some (VStr "ts1"));
       (Some (VStr "B"), Some (VNum (Number.of_Z 2)), Some (VStr "pending"), Some (VStr "ts2"))]
  ∧ map (λ w : object, (w !! "id", w !! "status", w !! "progress")) (db_workflows st)
    = [(Some (VStr "w1"), Some (VStr "pending"), Some (VNum (Number.of_Z 0)));
       (Some (VStr "uuid-0"), Some (VStr "pending"), Some (VNum (Number.of_Z 0)))].
Proof. cbv zeta. repeat apply conj; by vm_compute. Qed.

(** * Further properties of the handlers *)

(** ** Requests that write nothing *)

Lemma store_eta (st : store) :
  Store (db_users st) (db_employees st) (db_workflowTemplates st) (db_templateSteps st)
        (db_workflows st) (db_workflowSteps st) (db_tasks st) (db_auditLogs st)
        (db_uuid st) (db_drawn st) = st.
Proof. by destruct st. Qed.

(** An update whose condition selects no row returns nothing and leaves
    the table as it was. *)
Lemma update_where_nothing table values (p : object → bool) (rows : list object) :
  Db.select_where p rows = [] →
  Db.update_where table values p rows = rows ∧ Db.returning table values p rows = [].
Proof.
  unfold Db.select_where, Db.update_where, Db.returning. intros Hnone.
  rewrite Hnone. split; [|done].
  induction rows as [|r rows IH]; simpl in *; [done|].
  destruct (p r); [done|]. by rewrite IH.
Qed.

(** X1. A PATCH of a workflow step, an employee, a workflow, a task or a
    template whose id is not in the table answers 404 and returns the
    database exactly as it was; for a template this holds also when the
    body carries a steps array. *)
Theorem patch_of_missing_id_writes_nothing (now : Z) (id : string) (req_body : object)
    (steps : option (list object)) (st : store) :
  Db.select_where (Db.eq "id" id) (db_workflowSteps st) = [] →
  Db.select_where (Db.eq "id" id) (db_employees st) = [] →
  Db.select_where (Db.eq "id" id) (db_workflows st) = [] →
  Db.select_where (Db.eq "id" id) (db_tasks st) = [] →
  Db.select_where (Db.eq "id" id) (db_workflowTemplates st) = [] →
  Routes.patch_workflow_step now id req_body st
    = (Routes.Response 404 (Routes.JMessage "Workflow step not found"), st)
  ∧ Routes.patch_employee now id req_body st
    = (Routes.Response 404 (Routes.JMessage "Employee not found"), st)
  ∧ Api.patch_workflow now id req_body st
    = (Routes.Response 404 (Routes.JMessage "Workflow not found"), st)
  ∧ Api.patch_task now id req_body st
    = (Routes.Response 404 (Routes.JMessage "Task not found"), st)
  ∧ Api.patch_template now id req_body steps st
    = (Routes.Response 404 (Routes.JMessage "Template not found"), st).
Proof.
  intros Hs He Hw Ht Hp.
  unfold Routes.patch_workflow_step, Routes.patch_employee, Api.patch_workflow,
    Api.patch_task, Api.patch_template, Storage.updateWorkflowStep, Storage.updateEmployee,
    Storage.updateWorkflow, Gateway.updateTask, Gateway.updateWorkflowTemplate.
  repeat apply conj.
  - destruct (update_where_nothing Schema.workflowSteps (Storage.touched now req_body) _ _ Hs)
      as [-> ->]. cbn [head]. unfold with_workflowSteps. by rewrite store_eta.
  - destruct (update_where_nothing Schema.employees (Storage.touched now req_body) _ _ He)
      as [-> ->]. cbn [head]. unfold with_employees. by rewrite store_eta.
  - destruct (update_where_nothing Schema.workflows (Storage.touched now req_body) _ _ Hw)
      as [-> ->]. cbn [head]. unfold with_workflows. by rewrite store_eta.
  - destruct (update_where_nothing Schema.tasks (Storage.touched now req_body) _ _ Ht)
      as [-> ->]. cbn [head]. unfold with_tasks. by rewrite store_eta.
  - destruct (update_where_nothing Schema.workflowTemplates (Storage.touched now req_body) _ _ Hp)
      as [-> ->]. cbn [head]. unfold with_workflowTemplates. by rewrite store_eta.
Qed.

Lemma patch_of_missing_id_writes_nothing_witness :
  Routes.patch_workflow_step 1000 "nobody" Sample.complete Sample.office
    = (Routes.Response 404 (Routes.JMessage "Workflow step not found"), Sample.office)
  ∧ Routes.patch_employee 1000 "nobody" Sample.complete Sample.office
    = (Routes.Response 404 (Routes.JMessage "Employee not found"), Sample.office)
  ∧ Api.patch_workflow 1000 "nobody" Sample.complete Sample.office
    = (Routes.Response 404 (Routes.JMessage "Workflow not found"), Sample.office)
  ∧ Api.patch_task 1000 "nobody" Sample.complete Sample.office
    = (Routes.Response 404 (Routes.JMessage "Task not found"), Sample.office)
  ∧ Api.patch_template 1000 "nobody" Sample.complete (Some []) Sample.office
    = (Routes.Response 404 (Routes.JMessage "Template not found"), Sample.office).
Proof.
  apply (patch_of_missing_id_writes_nothing 1000 "nobody" Sample.complete (Some [])
           Sample.office); by vm_compute.
Defined.

(** X2. A POST answers 201 when its body passes validation and 400 when
    it does not, and in the second case returns the database exactly as it
    was: a rejected body leaves no row behind, in any table. *)
Theorem post_creates_or_writes_nothing (bcrypt_hash : string → nat → string) (now : Z)
    (id : string) (req_body : object) (steps : option (list object)) (st : store) :
  let outcome (schema : list Zod.field) (body : object) (r : Routes.response * store) :=
    (Zod.success (Zod.safeParse schema body) = true ∧ (fst r).(Routes.status) = 201%nat)
    ∨ (Zod.success (Zod.safeParse schema body) = false
       ∧ (fst r).(Routes.status) = 400%nat ∧ snd r = st) in
  outcome Zod.insertUserSchema req_body (Routes.post_users bcrypt_hash now req_body st)
  ∧ outcome Zod.insertEmployeeSchema req_body (Routes.post_employees now req_body st)
  ∧ outcome Zod.insertWorkflowSchema req_body (Routes.post_workflows now req_body st)
  ∧ outcome Api.insertTaskSchema req_body (Api.post_tasks now req_body st)
  ∧ outcome Api.insertWorkflowTemplateSchema req_body
      (Api.post_templates now req_body steps st)
  ∧ outcome Api.insertTemplateStepSchema (<["templateId" := VStr id]> req_body)
      (Api.post_template_step now id req_body st).
Proof.
  cbv zeta.
  unfold Routes.post_users, Routes.post_employees, Routes.post_workflows, Api.post_tasks,
    Api.post_templates, Api.post_template_step.
  repeat apply conj; destruct (Zod.safeParse _ _); first [by right | by left].
Qed.

(** ** Deleting and fetching users *)

(** X3. [DELETE /api/users/:id] answers 204 whether or not the user
    exists, appends one audit row with action "delete" either way, and a
    [GET /api/users/:id] that follows answers 404. *)
Theorem deleted_user_is_gone (now : Z) (id : string) (st : store) :
  let st' := snd (Routes.delete_user now id st) in
  fst (Routes.delete_user now id st) = Routes.Response 204 Routes.NoBody
  ∧ Routes.get_user id st' = (Routes.Response 404 (Routes.JMessage "User not found"), st')
  ∧ ∃ log : object,
      db_auditLogs st' = (db_auditLogs st ++ [log])%list
      ∧ log !! "action" = Some (VStr "delete")
      ∧ log !! "entityType" = Some (VStr "user").
Proof.
  cbv zeta. split; [done|]. split.
  - unfold Routes.get_user, Storage.getUser.
    assert (Hgone : Db.select_where (Db.eq "id" id)
                      (db_users (snd (Routes.delete_user now id st))) = []).
    { unfold Routes.delete_user, Storage.deleteUser. cbn [snd].
      destruct (createAuditLog_appends now None "delete" "user" (Some (VStr id))
                  (Some (VStr "Deleted user"))
                  (with_users (Db.delete_where (Db.eq "id" id) (db_users st)) st))
        as (_ & -> & _).
      apply select_deleted. }
    by rewrite Hgone.
  - unfold Routes.delete_user, Storage.deleteUser. cbn [snd].
    destruct (createAuditLog_appends now None "delete" "user" (Some (VStr id))
                (Some (VStr "Deleted user"))
                (with_users (Db.delete_where (Db.eq "id" id) (db_users st)) st))
      as ((log & Hlog & Ha & He & _) & _).
    exists log. by rewrite Hlog.
Qed.

(** ** Creating users *)

Lemma strip_lookup_none (schema : list Zod.field) (req_body : object) (k : string) :
  k ∉ map Zod.key schema → Zod.strip schema req_body !! k = None.
Proof.
  unfold Zod.strip. induction schema as [|f schema IH]; simpl; [done|].
  intros Hk. apply not_elem_of_cons in Hk as [Hne Hk].
  destruct (req_body !! Zod.key f); [rewrite lookup_insert_ne by done|]; by apply IH.
Qed.

(** A column the values leave undefined gets its default: a fresh uuid,
    the clock, the constant of the schema, or NULL. *)
Lemma inserted_lookup_default (table : list Schema.column) (uuid : string) (now : Z)
    (values : object) (c : Schema.column) :
  NoDup (map Schema.col_key table) → c ∈ table → values !! Schema.col_key c = None →
  Db.inserted table uuid now values !! Schema.col_key c
    = Some match Schema.col_default c with
           | Schema.gen_random_uuid => VStr uuid
           | Schema.defaultNow => VDate now
           | Schema.default_value v => v
           | Schema.no_default => VNull
           end.
Proof.
  unfold Db.inserted. intros Hnodup Hc Hv.
  induction table as [|c' table IH]; simpl in *; [by apply elem_of_nil in Hc|].
  apply NoDup_cons in Hnodup as [Hfresh Hnodup].
  apply elem_of_cons in Hc as [->|Hc].
  - by rewrite lookup_insert_eq, Hv.
  - rewrite lookup_insert_ne; [by apply IH|].
    intros Heq. apply Hfresh. rewrite Heq. by apply list_elem_of_fmap_2.
Qed.

Ltac table_fact := first [ by apply (bool_decide_unpack _); vm_compute | done ].

(** Case analysis on [k ∈ [k1; ...; kn]] *)
Ltac cases_of H :=
  repeat (apply elem_of_cons in H as [->|H]); [..|by apply elem_of_nil in H].

Ltac column_of table :=
  unfold table; repeat first [apply list_elem_of_here | apply list_elem_of_further].

Lemma insertUserSchema_keys :
  map Zod.key Zod.insertUserSchema
  = ["email"; "username"; "password"; "firstName"; "lastName"; "role";
     "departmentId"; "avatarUrl"; "isActive"].
Proof. by vm_compute. Qed.

(** What [POST /api/users] does with a body that passes validation *)
Lemma post_users_created (bcrypt_hash : string → nat → string) (now : Z)
    (req_body : object) (st : store) :
  Zod.success (Zod.safeParse Zod.insertUserSchema req_body) = true →
  let data := Zod.strip Zod.insertUserSchema req_body in
  let user :=
    Db.inserted Schema.users (fresh_uuid st) now
      (<["password" := VStr (bcrypt_hash (Routes.str (data !! "password")) 10)]> data) in
  Routes.post_users bcrypt_hash now req_body st
  = (Routes.Response 201 (Routes.JObject (Routes.omitPassword user)),
     Routes.createAuditLog now None "create" "user" (user !! "id")
       (Some (VStr ("Created user " ++ Routes.str (user !! "email"))))
       (draw_uuid (with_users (db_users st ++ [user]) st))).
Proof.
  intros Hok data user. unfold Routes.post_users.
  by rewrite (safeParse_success _ _ Hok).
Qed.

(** X4. The id, [createdAt] and [updatedAt] of a created user are chosen by
    the server, a fresh uuid and the clock, whatever the body says about
    them; the other columns are stored as the body gives them. *)
Theorem created_user_has_server_id (bcrypt_hash : string → nat → string) (now : Z)
    (req_body : object) (st : store) :
  Zod.success (Zod.safeParse Zod.insertUserSchema req_body) = true →
  ∃ user : object,
    fst (Routes.post_users bcrypt_hash now req_body st)
      = Routes.Response 201 (Routes.JObject (Routes.omitPassword user))
    ∧ last (db_users (snd (Routes.post_users bcrypt_hash now req_body st))) = Some user
    ∧ length (db_users (snd (Routes.post_users bcrypt_hash now req_body st)))
      = S (length (db_users st))
    ∧ user !! "id" = Some (VStr (fresh_uuid st))
    ∧ user !! "createdAt" = Some (VDate now)
    ∧ user !! "updatedAt" = Some (VDate now)
    ∧ ∀ k v, k ∈ ["email"; "username"; "firstName"; "lastName"; "role"; "departmentId";
                  "avatarUrl"; "isActive"] →
             req_body !! k = Some v → user !! k = Some v.
Proof.
  intros Hok. rewrite (post_users_created _ _ _ _ Hok). cbv zeta.
  set (data := Zod.strip Zod.insertUserSchema req_body).
  set (values := <["password" := _]> data).
  set (user := Db.inserted Schema.users (fresh_uuid st) now values).
  assert (Hnone : ∀ k, k ∈ ["id"; "createdAt"; "updatedAt"] → values !! k = None).
  { intros k Hk. unfold values.
    assert (Hk' : k ≠ "password" ∧ k ∉ map Zod.key Zod.insertUserSchema).
    { rewrite insertUserSchema_keys. cases_of Hk; split; table_fact. }
    rewrite lookup_insert_ne by (symmetry; apply Hk').
    apply strip_lookup_none. apply Hk'. }
  exists user. cbn [fst snd].
  destruct (createAuditLog_appends now None "create" "user" (user !! "id")
              (Some (VStr ("Created user " ++ Routes.str (user !! "email"))))
              (draw_uuid (with_users (db_users st ++ [user]) st)))
    as (_ & -> & _).
  cbn [db_users draw_uuid with_users].
  repeat apply conj.
  - done.
  - apply last_snoc.
  - rewrite length_app. simpl. lia.
  - apply (inserted_lookup_default Schema.users _ _ values Schema.primaryKey);
      [table_fact | column_of Schema.users | apply Hnone; table_fact].
  - apply (inserted_lookup_default Schema.users _ _ values Schema.createdAt);
      [table_fact | column_of Schema.users | apply Hnone; table_fact].
  - apply (inserted_lookup_default Schema.users _ _ values Schema.updatedAt);
      [table_fact | column_of Schema.users | apply Hnone; table_fact].
  - intros k v Hk Hv.
    assert (Hk' : k ≠ "password" ∧ k ∈ map Zod.key Zod.insertUserSchema
                  ∧ k ∈ map Schema.col_key Schema.users).
    { rewrite insertUserSchema_keys. cases_of Hk; repeat apply conj; table_fact. }
    apply inserted_lookup; [apply Hk'|].
    unfold values. rewrite lookup_insert_ne by (symmetry; apply Hk').
    unfold data. rewrite strip_lookup; [done | apply Hk'].
Qed.

(** The row [POST /api/users] appends, and its id *)
Lemma created_user_row (bcrypt_hash : string → nat → string) (now : Z)
    (req_body : object) (st : store) :
  Zod.success (Zod.safeParse Zod.insertUserSchema req_body) = true →
  ∃ user : object,
    Routes.post_users bcrypt_hash now req_body st
    = (Routes.Response 201 (Routes.JObject (Routes.omitPassword user)),
       snd (Routes.post_users bcrypt_hash now req_body st))
    ∧ db_users (snd (Routes.post_users bcrypt_hash now req_body st))
      = (db_users st ++ [user])%list
    ∧ user !! "id" = Some (VStr (fresh_uuid st)).
Proof.
  intros Hok. rewrite (post_users_created _ _ _ _ Hok). cbv zeta.
  set (data := Zod.strip Zod.insertUserSchema req_body).
  set (values := <["password" := _]> data).
  set (user := Db.inserted Schema.users (fresh_uuid st) now values).
  exists user. cbn [fst snd]. split; [done|].
  destruct (createAuditLog_appends now None "create" "user" (user !! "id")
              (Some (VStr ("Created user " ++ Routes.str (user !! "email"))))
              (draw_uuid (with_users (db_users st ++ [user]) st)))
    as (_ & -> & _).
  split; [done|].
  apply (inserted_lookup_default Schema.users _ _ values Schema.primaryKey);
    [table_fact | column_of Schema.users |].
  unfold values. rewrite lookup_insert_ne by done.
  apply strip_lookup_none. rewrite insertUserSchema_keys. table_fact.
Qed.

Lemma created_user_has_server_id_witness :
  ∃ user : object,
    fst (Routes.post_users Sample.bcrypt_hash 1000
           (<["id" := VStr "chosen"]> Sample.new_user) Sample.office)
      = Routes.Response 201 (Routes.JObject (Routes.omitPassword user))
    ∧ last (db_users (snd (Routes.post_users Sample.bcrypt_hash 1000
                             (<["id" := VStr "chosen"]> Sample.new_user) Sample.office)))
      = Some user
    ∧ length (db_users (snd (Routes.post_users Sample.bcrypt_hash 1000
                               (<["id" := VStr "chosen"]> Sample.new_user) Sample.office)))
      = S (length (db_users Sample.office))
    ∧ user !! "id" = Some (VStr (fresh_uuid Sample.office))
    ∧ user !! "createdAt" = Some (VDate 1000)
    ∧ user !! "updatedAt" = Some (VDate 1000)
    ∧ ∀ k v, k ∈ ["email"; "username"; "firstName"; "lastName"; "role"; "departmentId";
                  "avatarUrl"; "isActive"] →
             (<["id" := VStr "chosen"]> Sample.new_user : object) !! k = Some v →
             user !! k = Some v.
Proof.
  apply (created_user_has_server_id Sample.bcrypt_hash 1000
           (<["id" := VStr "chosen"]> Sample.new_user) Sample.office).
  by vm_compute.
Defined.

(** X5. A user created with a unique id can be fetched: when no user row
    has the uuid about to be drawn, [GET /api/users/:id] with the id of the
    response answers 200 with the same object as the create. *)
Theorem created_user_can_be_fetched (bcrypt_hash : string → nat → string) (now : Z)
    (req_body : object) (st : store) :
  Zod.success (Zod.safeParse Zod.insertUserSchema req_body) = true →
  Db.select_where (Db.eq "id" (fresh_uuid st)) (db_users st) = [] →
  ∃ sent : object,
    fst (Routes.post_users bcrypt_hash now req_body st)
      = Routes.Response 201 (Routes.JObject sent)
    ∧ sent !! "id" = Some (VStr (fresh_uuid st))
    ∧ Routes.get_user (fresh_uuid st) (snd (Routes.post_users bcrypt_hash now req_body st))
      = (Routes.Response 200 (Routes.JObject sent),
         snd (Routes.post_users bcrypt_hash now req_body st)).
Proof.
  intros Hok Hfresh.
  destruct (created_user_row bcrypt_hash now req_body st Hok) as (user & Hpost & Husers & Hid).
  rewrite Hpost. cbn [fst snd].
  exists (Routes.omitPassword user). split; [done|].
  split; [by rewrite omitPassword_keeps|].
  unfold Routes.get_user, Storage.getUser. rewrite Husers.
  unfold Db.select_where in *. rewrite List.filter_app, Hfresh. cbn [List.filter app].
  unfold Db.eq at 1. rewrite Hid. cbn [is_str]. by rewrite String.eqb_refl.
Qed.

Lemma created_user_can_be_fetched_witness :
  ∃ sent : object,
    fst (Routes.post_users Sample.bcrypt_hash 1000 Sample.new_user Sample.office)
      = Routes.Response 201 (Routes.JObject sent)
    ∧ sent !! "id" = Some (VStr (fresh_uuid Sample.office))
    ∧ Routes.get_user (fresh_uuid Sample.office)
        (snd (Routes.post_users Sample.bcrypt_hash 1000 Sample.new_user Sample.office))
      = (Routes.Response 200 (Routes.JObject sent),
         snd (Routes.post_users Sample.bcrypt_hash 1000 Sample.new_user Sample.office)).
Proof.
  apply (created_user_can_be_fetched Sample.bcrypt_hash 1000 Sample.new_user Sample.office);
    by vm_compute.
Defined.

(** ** Passwords *)

Lemma update_where_Forall2 table values (p : object → bool) (rows : list object) :
  Forall2 (λ r r', if p r then r' = Db.set table values r else r' = r)
          rows (Db.update_where table values p rows).
Proof.
  unfold Db.update_where. induction rows as [|r rows IH]; simpl; constructor; [|done].
  by destruct (p r).
Qed.

(** X6. A password given as a string is stored hashed: the row a create
    appends carries [bcrypt.hash(password, 10)], and a PATCH rewrites the
    password of the rows with the id to the hash and leaves every other
    user row as it was.  The empty string is the exception on PATCH: it is
    falsy, so it is stored as it is. *)
Theorem password_is_stored_hashed (bcrypt_hash : string → nat → string) (now : Z)
    (id : string) (req_body : object) (st : store) (password : string) :
  req_body !! "password" = Some (VStr password) →
  (Zod.success (Zod.safeParse Zod.insertUserSchema req_body) = true →
   ∃ user : object,
     last (db_users (snd (Routes.post_users bcrypt_hash now req_body st))) = Some user
     ∧ user !! "password" = Some (VStr (bcrypt_hash password 10)))
  ∧ Forall2 (λ u u' : object,
               if Db.eq "id" id u
               then u' !! "password"
                    = Some (VStr (if String.eqb password "" then ""
                                  else bcrypt_hash password 10))
               else u' = u)
            (db_users st)
            (db_users (snd (Routes.patch_user bcrypt_hash now id req_body st))).
Proof.
  intros Hpw. split.
  - intros Hok. rewrite (post_users_created _ _ _ _ Hok). cbv zeta. cbn [snd].
    eexists. split.
    + destruct (createAuditLog_appends now None "create" "user"
                  (Db.inserted Schema.users (fresh_uuid st) now
                     (<["password" := VStr (bcrypt_hash (Routes.str
                          (Zod.strip Zod.insertUserSchema req_body !! "password")) 10)]>
                        (Zod.strip Zod.insertUserSchema req_body)) !! "id")
                  (Some (VStr ("Created user " ++ Routes.str
                     (Db.inserted Schema.users (fresh_uuid st) now
                        (<["password" := VStr (bcrypt_hash (Routes.str
                             (Zod.strip Zod.insertUserSchema req_body !! "password")) 10)]>
                           (Zod.strip Zod.insertUserSchema req_body)) !! "email"))))
                  (draw_uuid (with_users
                     (db_users st ++
                      [Db.inserted Schema.users (fresh_uuid st) now
                         (<["password" := VStr (bcrypt_hash (Routes.str
                              (Zod.strip Zod.insertUserSchema req_body !! "password")) 10)]>
                            (Zod.strip Zod.insertUserSchema req_body))]) st)))
        as (_ & -> & _).
      cbn [db_users draw_uuid with_users]. apply last_snoc.
    + apply inserted_lookup; [table_fact|].
      rewrite lookup_insert_eq, strip_lookup, Hpw by (rewrite insertUserSchema_keys; table_fact).
      done.
  - assert (Hrows : ∃ updateData : object,
              updateData !! "password"
                = Some (VStr (if String.eqb password "" then ""
                              else bcrypt_hash password 10))
              ∧ db_users (snd (Routes.patch_user bcrypt_hash now id req_body st))
                = Db.update_where Schema.users (Storage.touched now updateData)
                    (Db.eq "id" id) (db_users st)).
    { unfold Routes.patch_user. rewrite Hpw. cbn [truthy].
      destruct (String.eqb password "") eqn:Hempty; cbn [negb].
      - exists req_body. apply String.eqb_eq in Hempty. subst password.
        split; [done|]. unfold Storage.updateUser. by destruct (head _).
      - eexists. split; [apply lookup_insert_eq|].
        unfold Storage.updateUser. by destruct (head _). }
    destruct Hrows as (updateData & Hdata & ->).
    eapply Forall2_impl; [apply update_where_Forall2|].
    intros u u'. cbv beta. destruct (Db.eq "id" id u); [|done].
    intros ->. by rewrite set_touched_lookup, Hdata by table_fact.
Qed.

Lemma password_is_stored_hashed_witness :
  (Zod.success (Zod.safeParse Zod.insertUserSchema Sample.new_user) = true →
   ∃ user : object,
     last (db_users (snd (Routes.post_users Sample.bcrypt_hash 1000 Sample.new_user
                            Sample.office))) = Some user
     ∧ user !! "password" = Some (VStr (Sample.bcrypt_hash "hunter2" 10)))
  ∧ Forall2 (λ u u' : object,
               if Db.eq "id" "u1" u
               then u' !! "password"
                    = Some (VStr (if String.eqb "hunter2" "" then ""
                                  else Sample.bcrypt_hash "hunter2" 10))
               else u' = u)
            (db_users Sample.office)
            (db_users (snd (Routes.patch_user Sample.bcrypt_hash 1000 "u1" Sample.new_user
                              Sample.office))).
Proof.
  apply (password_is_stored_hashed Sample.bcrypt_hash 1000 "u1" Sample.new_user
           Sample.office "hunter2").
  by vm_compute.
Defined.

(** ** Updating *)

(** X7. A PATCH of an employee, a workflow or a task merges: in every row
    with the id, [updatedAt] becomes the clock, each other column the body
    defines takes the body's value (the body is not validated, so this
    includes [id] and [createdAt]), every other column and every property
    that is no column stays; the other rows are untouched. *)
Theorem patch_merges_the_body (now : Z) (id : string) (req_body : object) (st : store) :
  let merged (table : list Schema.column) (rows rows' : list object) :=
    Forall2 (λ r r' : object,
               if Db.eq "id" id r
               then ∀ k : string,
                      r' !! k
                      = if decide (k = "updatedAt") then Some (VDate now)
                        else if bool_decide (k ∈ map Schema.col_key table)
                             then match req_body !! k with
                                  | Some v => Some v
                                  | None => r !! k
                                  end
                             else r !! k
               else r' = r)
            rows rows' in
  merged Schema.employees (db_employees st)
         (db_employees (snd (Routes.patch_employee now id req_body st)))
  ∧ merged Schema.workflows (db_workflows st)
           (db_workflows (snd (Api.patch_workflow now id req_body st)))
  ∧ merged Schema.tasks (db_tasks st)
           (db_tasks (snd (Api.patch_task now id req_body st))).
Proof.
  cbv zeta.
  assert (Hset : ∀ table (r : object) (k : string),
            "updatedAt" ∈ map Schema.col_key table →
            Db.set table (Storage.touched now req_body) r !! k
            = if decide (k = "updatedAt") then Some (VDate now)
              else if bool_decide (k ∈ map Schema.col_key table)
                   then match req_body !! k with Some v => Some v | None => r !! k end
                   else r !! k).
  { intros table r k Hcol. rewrite set_lookup. unfold Storage.touched.
    destruct (decide (k = "updatedAt")) as [->|Hk].
    - by rewrite bool_decide_eq_true_2, lookup_insert_eq.
    - by rewrite lookup_insert_ne. }
  repeat apply conj.
  - assert (Hrows : db_employees (snd (Routes.patch_employee now id req_body st))
                    = Db.update_where Schema.employees (Storage.touched now req_body)
                        (Db.eq "id" id) (db_employees st)).
    { unfold Routes.patch_employee, Storage.updateEmployee. by destruct (head _). }
    rewrite Hrows. eapply Forall2_impl; [apply update_where_Forall2|].
    intros r r'. cbv beta. destruct (Db.eq "id" id r); [|done].
    intros -> k. apply Hset. table_fact.
  - assert (Hrows : db_workflows (snd (Api.patch_workflow now id req_body st))
                    = Db.update_where Schema.workflows (Storage.touched now req_body)
                        (Db.eq "id" id) (db_workflows st)).
    { unfold Api.patch_workflow, Storage.updateWorkflow. by destruct (head _). }
    rewrite Hrows. eapply Forall2_impl; [apply update_where_Forall2|].
    intros r r'. cbv beta. destruct (Db.eq "id" id r); [|done].
    intros -> k. apply Hset. table_fact.
  - assert (Hrows : db_tasks (snd (Api.patch_task now id req_body st))
                    = Db.update_where Schema.tasks (Storage.touched now req_body)
                        (Db.eq "id" id) (db_tasks st)).
    { unfold Api.patch_task, Gateway.updateTask. by destruct (head _). }
    rewrite Hrows. eapply Forall2_impl; [apply update_where_Forall2|].
    intros r r'. cbv beta. destruct (Db.eq "id" id r); [|done].
    intros -> k. apply Hset. table_fact.
Qed.

(** ** Validation *)

(** X8. Properties the schema does not name do not matter to validation:
    adding one to a body changes neither the verdict, nor the errors, nor
    the parsed data, which never carries it. *)
Theorem unknown_properties_are_stripped (schema : list Zod.field) (req_body : object)
    (k : string) (v : value) :
  k ∉ map Zod.key schema →
  Zod.safeParse schema (<[k := v]> req_body) = Zod.safeParse schema req_body
  ∧ Zod.strip schema (<[k := v]> req_body) !! k = None.
Proof.
  intros Hk. split; [|by apply strip_lookup_none].
  unfold Zod.safeParse.
  assert (Hlook : ∀ f, f ∈ schema → (<[k := v]> req_body : object) !! Zod.key f
                                    = req_body !! Zod.key f).
  { intros f Hf. apply lookup_insert_ne. intros ->. apply Hk. by apply list_elem_of_fmap_2. }
  assert (Hcheck : omap (λ f, Zod.check f (<[k := v]> req_body)) schema
                   = omap (λ f, Zod.check f req_body) schema).
  { clear Hk. induction schema as [|f schema IH]; [done|]. cbn [omap list_omap].
    assert (Hf : Zod.check f (<[k := v]> req_body) = Zod.check f req_body).
    { unfold Zod.check. by rewrite Hlook by apply list_elem_of_here. }
    rewrite Hf, IH; [done|]. intros g Hg. apply Hlook. by apply list_elem_of_further. }
  assert (Hstrip : Zod.strip schema (<[k := v]> req_body) = Zod.strip schema req_body).
  { clear Hk Hcheck. unfold Zod.strip.
    induction schema as [|f schema IH]; [done|]. cbn [foldr].
    rewrite Hlook by apply list_elem_of_here.
    rewrite IH; [done|]. intros g Hg. apply Hlook. by apply list_elem_of_further. }
  by rewrite Hcheck, Hstrip.
Qed.

Lemma unknown_properties_are_stripped_witness :
  Zod.safeParse Zod.insertUserSchema (<["isAdmin" := VBool true]> Sample.new_user)
    = Zod.safeParse Zod.insertUserSchema Sample.new_user
  ∧ Zod.strip Zod.insertUserSchema (<["isAdmin" := VBool true]> Sample.new_user) !! "isAdmin"
    = None.
Proof.
  apply (unknown_properties_are_stripped Zod.insertUserSchema Sample.new_user "isAdmin"
           (VBool true)).
  rewrite insertUserSchema_keys. table_fact.
Defined.

(** ** Lists and their filters *)

Lemma eq_spec (column s : string) (row : object) :
  Db.eq column s row = true ↔ row !! column = Some (VStr s).
Proof.
  unfold Db.eq, is_str. destruct (row !! column) as [[]|]; try (split; by intros).
  rewrite String.eqb_eq. split; [by intros -> | by intros [= ->]].
Qed.

Lemma place_desc_perm column row sorted : Gateway.place_desc column row sorted ≡ₚ row :: sorted.
Proof.
  induction sorted as [|r rest IH]; simpl; [done|].
  case_match; [done|]. rewrite IH. apply Permutation_swap.
Qed.

Lemma orderByDesc_perm column rows : Gateway.orderByDesc column rows ≡ₚ rows.
Proof.
  induction rows as [|r rows IH]; simpl; [done|].
  rewrite place_desc_perm. by rewrite IH.
Qed.

Lemma select_where_spec (p : object → bool) (rows : list object) (row : object) :
  row ∈ Db.select_where p rows ↔ row ∈ rows ∧ p row = true.
Proof.
  unfold Db.select_where. rewrite !list_elem_of_In. apply filter_In.
Qed.

Lemma and_app (a b : list (object → bool)) (row : object) :
  Gateway.and_ (a ++ b) row = Gateway.and_ a row && Gateway.and_ b row.
Proof. unfold Gateway.and_. apply forallb_app. Qed.

(** What a filter asks of a row: nothing when it is absent or empty, else
    that the column is that string. *)
Lemma and_condition (column : string) (filter : option string) (row : object) :
  Gateway.and_ (Gateway.condition column filter) row = true
  ↔ match filter with
    | Some s => s = "" ∨ row !! column = Some (VStr s)
    | None => True
    end.
Proof.
  unfold Gateway.condition. destruct filter as [s|]; [|done].
  destruct (String.eqb s "") eqn:Hs; cbn [negb].
  - apply String.eqb_eq in Hs. split; [by left | done].
  - apply String.eqb_neq in Hs. unfold Gateway.and_. cbn [forallb].
    rewrite andb_true_r, eq_spec. split; [by right | by intros [?|?]].
Qed.

Lemma filtered_spec (conditions : list (object → bool)) (order : list object → list object)
    (rows : list object) (row : object) :
  (∀ l, order l ≡ₚ l) →
  row ∈ Gateway.filtered conditions order rows
  ↔ row ∈ rows ∧ Gateway.and_ conditions row = true.
Proof.
  intros Horder. unfold Gateway.filtered.
  destruct conditions as [|c conditions].
  - rewrite Horder. split; [by intros ? | by intros [? _]].
  - rewrite Horder. apply select_where_spec.
Qed.

(** X9. The list methods combine their filters with AND, and ignore a
    filter that is absent or the empty string: an employee, template,
    workflow or task is listed exactly when it is in the table and matches
    every filter given. *)
Theorem list_filters_intersect (a b c d : option string) (st : store) (row : object) :
  let wanted (column : string) (filter : option string) :=
    match filter with
    | Some s => s = "" ∨ row !! column = Some (VStr s)
    | None => True
    end in
  (row ∈ Gateway.getEmployees a b st
   ↔ row ∈ db_employees st ∧ wanted "status" a ∧ wanted "departmentId" b)
  ∧ (row ∈ Gateway.getWorkflowTemplates a b st
     ↔ row ∈ db_workflowTemplates st ∧ wanted "type" a ∧ wanted "status" b)
  ∧ (row ∈ Gateway.getWorkflows a b c d st
     ↔ row ∈ db_workflows st ∧ wanted "status" a ∧ wanted "type" b
       ∧ wanted "employeeId" c ∧ wanted "assignedTo" d)
  ∧ (row ∈ Gateway.getTasks a b c st
     ↔ row ∈ db_tasks st ∧ wanted "workflowId" a ∧ wanted "assigneeId" b
       ∧ wanted "status" c).
Proof.
  cbv zeta.
  unfold Gateway.getEmployees, Gateway.getWorkflowTemplates, Gateway.getWorkflows,
    Gateway.getTasks.
  repeat apply conj.
  all: rewrite filtered_spec by apply orderByDesc_perm.
  all: rewrite ?and_app, ?andb_true_iff, !and_condition.
  all: tauto.
Qed.

(** With no filter the whole table is listed, each row once. *)
Lemma unfiltered_lists (st : store) :
  Gateway.getEmployees None None st ≡ₚ db_employees st
  ∧ Gateway.getWorkflows None None None None st ≡ₚ db_workflows st.
Proof. split; apply orderByDesc_perm. Qed.

(** X10. [GET /api/audit-logs] never sends more than 100 rows; every row
    sent is a row of the audit log that matches the filters given; and
    while the log holds at most 100 rows, every such row is sent. *)
Theorem audit_log_listing_is_capped (entityType entityId userId : option string)
    (st : store) :
  let wanted (row : object) (column : string) (filter : option string) :=
    match filter with
    | Some s => s = "" ∨ row !! column = Some (VStr s)
    | None => True
    end in
  let matching (row : object) :=
    row ∈ db_auditLogs st ∧ wanted row "entityType" entityType
    ∧ wanted row "entityId" entityId ∧ wanted row "userId" userId in
  ∃ rows : list object,
    Api.get_audit_logs entityType entityId userId st
      = (Routes.Response 200 (Routes.JArray rows), st)
    ∧ (length rows ≤ 100)%nat
    ∧ (∀ row, row ∈ rows → matching row)
    ∧ ((length (db_auditLogs st) ≤ 100)%nat → ∀ row, matching row → row ∈ rows).
Proof.
  cbv zeta. eexists. split; [reflexivity|].
  unfold Gateway.getAuditLogs, Gateway.filtered, Gateway.limit.
  set (conditions := (Gateway.condition "entityType" entityType
                      ++ Gateway.condition "entityId" entityId
                      ++ Gateway.condition "userId" userId)%list).
  assert (Hcond : ∀ row, Gateway.and_ conditions row = true
                         ↔ (match entityType with
                            | Some s => s = "" ∨ row !! "entityType" = Some (VStr s)
                            | None => True end)
                           ∧ (match entityId with
                              | Some s => s = "" ∨ row !! "entityId" = Some (VStr s)
                              | None => True end)
                           ∧ (match userId with
                              | Some s => s = "" ∨ row !! "userId" = Some (VStr s)
                              | None => True end)).
  { intros row. unfold conditions. by rewrite !and_app, !andb_true_iff, !and_condition. }
  assert (Hsel : ∀ row, row ∈ Db.select_where (Gateway.and_ conditions) (db_auditLogs st)
                        ↔ row ∈ db_auditLogs st ∧ Gateway.and_ conditions row = true)
    by (intros; apply select_where_spec).
  assert (Hlen : (length (Db.select_where (Gateway.and_ conditions) (db_auditLogs st))
                  ≤ length (db_auditLogs st))%nat)
    by apply List.filter_length_le.
  assert (Hall : ∀ row, Gateway.and_ [] row = true) by done.
  clearbody conditions. destruct conditions as [|c cs].
  - repeat apply conj.
    + rewrite length_take. lia.
    + intros row Hrow. apply subseteq_take in Hrow. rewrite orderByDesc_perm in Hrow.
      split; [done|]. by apply Hcond.
    + intros Hsmall row [Hrow _].
      rewrite take_ge by (by rewrite orderByDesc_perm). by rewrite orderByDesc_perm.
  - repeat apply conj.
    + rewrite length_take. lia.
    + intros row Hrow. apply subseteq_take in Hrow. rewrite orderByDesc_perm in Hrow.
      apply Hsel in Hrow as [Hrow Hc]. split; [done|]. by apply Hcond.
    + intros Hsmall row [Hrow Hmatch].
      rewrite take_ge by (rewrite orderByDesc_perm; lia). rewrite orderByDesc_perm.
      apply Hsel. split; [done|]. by apply Hcond.
Qed.

Lemma audit_log_listing_is_capped_witness :
  ∃ rows : list object,
    Api.get_audit_logs (Some "user") None (Some "") Sample.office
      = (Routes.Response 200 (Routes.JArray rows), Sample.office)
    ∧ (length rows ≤ 100)%nat
    ∧ (∀ row, row ∈ db_auditLogs Sample.office →
              row !! "entityType" = Some (VStr "user") → row ∈ rows).
Proof.
  destruct (audit_log_listing_is_capped (Some "user") None (Some "") Sample.office)
    as (rows & Hrows & Hcap & _ & Hall).
  exists rows. repeat apply conj; [done | done |].
  intros row Hrow Htype. apply Hall; [vm_compute; lia|].
  repeat apply conj; [done | by right | done | by left].
Defined.

(** X11. [GET /api/tasks/pending] lists exactly the tasks whose status is
    "pending" or "in_progress", of the given assignee when a non-empty
    [userId] is given: a completed or blocked task is never listed. *)
Theorem pending_tasks_are_open (userId : option string) (st : store) (row : object) :
  row ∈ Gateway.getPendingTasks userId st
  ↔ row ∈ db_tasks st
    ∧ (row !! "status" = Some (VStr "pending") ∨ row !! "status" = Some (VStr "in_progress"))
    ∧ match userId with
      | Some s => s = "" ∨ row !! "assigneeId" = Some (VStr s)
      | None => True
      end.
Proof.
  unfold Gateway.getPendingTasks. rewrite orderBy_perm, select_where_spec.
  change (Gateway.and_ (?p :: ?conditions) row) with (p row && Gateway.and_ conditions row).
  rewrite andb_true_iff, orb_true_iff, !eq_spec, and_condition. tauto.
Qed.

(** ** Completing a step *)

Lemma filter_length_perm (p : object → bool) (l l' : list object) :
  l ≡ₚ l' → length (List.filter p l) = length (List.filter p l').
Proof.
  induction 1 as [|x l l' _ IH|x y l|l l' l'' _ IH1 _ IH2]; simpl.
  - done.
  - destruct (p x); simpl; by rewrite IH.
  - by destruct (p x), (p y).
  - by rewrite IH1.
Qed.

Lemma map_singleton_inv {A B} (f : A → B) (l : list A) (y : B) :
  map f l = [y] → ∃ x, l = [x] ∧ f x = y.
Proof. destruct l as [|x [|]]; [done| |done]. intros [= <-]. by exists x. Qed.

(** Updating the only row with the id, in a way that keeps its workflow and
    makes it completed, keeps the number of steps of the workflow and
    raises the number of completed ones by one. *)
Lemma completing_one_row (p q c : object → bool) (f : object → object) (rows : list object)
    (r0 : object) :
  List.filter p rows = [r0] → q r0 = true → c r0 = false →
  q (f r0) = true → c (f r0) = true →
  let rows' := map (λ r, if p r then f r else r) rows in
  length (List.filter q rows') = length (List.filter q rows)
  ∧ length (List.filter c (List.filter q rows'))
    = S (length (List.filter c (List.filter q rows))).
Proof.
  intros Hone Hq Hc Hq' Hc'. cbv zeta.
  induction rows as [|r rows IH]; [done|].
  cbn [List.filter map] in *. destruct (p r) eqn:Hp.
  - injection Hone as -> Hnone.
    assert (Hsame : map (λ r, if p r then f r else r) rows = rows).
    { clear IH. induction rows as [|r rows IH]; [done|].
      cbn [List.filter map] in *. destruct (p r); [done|]. by rewrite IH. }
    rewrite Hsame, Hq, Hq'. cbn [List.filter length]. by rewrite Hc, Hc'.
  - destruct (IH Hone) as [IH1 IH2].
    destruct (q r); cbn [List.filter length]; [|done].
    destruct (c r); cbn [length]; by rewrite ?IH1, ?IH2.
Qed.

(** X12. Completing a step that is not completed yet: when exactly one step
    row has the id, it belongs to workflow [workflowId] and is not
    completed, and the body sets status "completed" without moving the
    step to another workflow, then the workflow has as many steps as
    before, one more of them completed, and the handler writes
    [Math.round((K + 1) / N * 100)] as the progress of the workflow, K and
    N being the completed and the total count before. *)
Theorem completing_a_step_counts_one_more (now : Z) (id : string) (req_body : object)
    (st : store) (workflowId : string) :
  map (λ s : object, (s !! "workflowId", is_str (s !! "status") "completed"))
      (Db.select_where (Db.eq "id" id) (db_workflowSteps st))
    = [(Some (VStr workflowId), false)] →
  workflowId ≠ "" →
  req_body !! "status" = Some (VStr "completed") →
  req_body !! "workflowId" = None →
  length (Storage.getWorkflowSteps workflowId
            (snd (Storage.updateWorkflowStep now id req_body st)))
    = length (Storage.getWorkflowSteps workflowId st)
  ∧ Routes.completedSteps (Storage.getWorkflowSteps workflowId
                             (snd (Storage.updateWorkflowStep now id req_body st)))
    = S (Routes.completedSteps (Storage.getWorkflowSteps workflowId st))
  ∧ (fst (Routes.patch_workflow_step now id req_body st)).(Routes.status) = 200%nat
  ∧ db_workflows (snd (Routes.patch_workflow_step now id req_body st))
    = map (λ w, if Db.eq "id" workflowId w
                then Db.set Schema.workflows
                       (Storage.touched now
                          (Routes.workflowUpdate now
                             (Storage.getWorkflowSteps workflowId
                                (snd (Storage.updateWorkflowStep now id req_body st))))) w
                else w)
          (db_workflows st)
  ∧ Routes.progress (Storage.getWorkflowSteps workflowId
                       (snd (Storage.updateWorkflowStep now id req_body st)))
    = percent (S (Routes.completedSteps (Storage.getWorkflowSteps workflowId st)))
              (length (Storage.getWorkflowSteps workflowId st)).
Proof.
  intros Hone Hne Hstatus Hstay.
  apply map_singleton_inv in Hone as (r0 & Hone & [= Hwf Hnot]).
  unfold Db.select_where in Hone.
  set (f := Db.set Schema.workflowSteps (Storage.touched now req_body)).
  assert (Hf_wf : f r0 !! "workflowId" = Some (VStr workflowId)).
  { unfold f. by rewrite set_touched_lookup, Hstay by table_fact. }
  assert (Hf_status : f r0 !! "status" = Some (VStr "completed")).
  { unfold f. by rewrite set_touched_lookup, Hstatus by table_fact. }
  destruct (completing_one_row (Db.eq "id" id) (Db.eq "workflowId" workflowId)
              (λ s, is_str (s !! "status") "completed") f (db_workflowSteps st) r0)
    as [Hlen Hcount]; [done | by apply eq_spec | done | by apply eq_spec
                       | by rewrite Hf_status |].
  assert (Hlen' : length (Storage.getWorkflowSteps workflowId
                            (snd (Storage.updateWorkflowStep now id req_body st)))
                  = length (Storage.getWorkflowSteps workflowId st)).
  { unfold Storage.getWorkflowSteps. rewrite !orderBy_perm. apply Hlen. }
  assert (Hcount' : Routes.completedSteps (Storage.getWorkflowSteps workflowId
                        (snd (Storage.updateWorkflowStep now id req_body st)))
                    = S (Routes.completedSteps (Storage.getWorkflowSteps workflowId st))).
  { unfold Routes.completedSteps, Storage.getWorkflowSteps.
    rewrite !(filter_length_perm _ _ _ (orderBy_perm _ _)). apply Hcount. }
  assert (Hstep : fst (Storage.updateWorkflowStep now id req_body st) = Some (f r0)).
  { unfold Storage.updateWorkflowStep, Db.returning. cbn [fst]. by rewrite Hone. }
  rewrite (patch_workflow_step_aggregates now id req_body st (f r0) workflowId Hstep Hf_wf Hne)
    by (by rewrite Hstatus).
  repeat apply conj; try done.
  by rewrite progress_is_percent, Hlen', Hcount'.
Qed.

Lemma completing_a_step_counts_one_more_witness :
  length (Storage.getWorkflowSteps "w1"
            (snd (Storage.updateWorkflowStep 1000 "s2" Sample.complete
                    (Sample.tracking "in_progress" 25 4 1))))
    = length (Storage.getWorkflowSteps "w1" (Sample.tracking "in_progress" 25 4 1))
  ∧ Routes.completedSteps (Storage.getWorkflowSteps "w1"
                             (snd (Storage.updateWorkflowStep 1000 "s2" Sample.complete
                                     (Sample.tracking "in_progress" 25 4 1))))
    = S (Routes.completedSteps
           (Storage.getWorkflowSteps "w1" (Sample.tracking "in_progress" 25 4 1)))
  ∧ (fst (Routes.patch_workflow_step 1000 "s2" Sample.complete
            (Sample.tracking "in_progress" 25 4 1))).(Routes.status) = 200%nat
  ∧ db_workflows (snd (Routes.patch_workflow_step 1000 "s2" Sample.complete
                         (Sample.tracking "in_progress" 25 4 1)))
    = map (λ w, if Db.eq "id" "w1" w
                then Db.set Schema.workflows
                       (Storage.touched 1000
                          (Routes.workflowUpdate 1000
                             (Storage.getWorkflowSteps "w1"
                                (snd (Storage.updateWorkflowStep 1000 "s2" Sample.complete
                                        (Sample.tracking "in_progress" 25 4 1)))))) w
                else w)
          (db_workflows (Sample.tracking "in_progress" 25 4 1))
  ∧ Routes.progress (Storage.getWorkflowSteps "w1"
                       (snd (Storage.updateWorkflowStep 1000 "s2" Sample.complete
                               (Sample.tracking "in_progress" 25 4 1))))
    = percent (S (Routes.completedSteps
                    (Storage.getWorkflowSteps "w1" (Sample.tracking "in_progress" 25 4 1))))
              (length (Storage.getWorkflowSteps "w1" (Sample.tracking "in_progress" 25 4 1))).
Proof.
  apply (completing_a_step_counts_one_more 1000 "s2" Sample.complete
           (Sample.tracking "in_progress" 25 4 1) "w1"); by vm_compute.
Defined.

(** X13. [PATCH /api/workflow-steps/:id] writes to two tables only: the
    step rows with the id, and, when it aggregates, the workflow rows whose
    id is the workflow of the updated step.  Every other step and workflow
    row, every other table (tasks and the audit log among them) and the
    uuid source are as before. *)
Theorem step_update_touches_only_its_rows (now : Z) (id : string) (req_body : object)
    (st : store) :
  let st' := snd (Routes.patch_workflow_step now id req_body st) in
  Forall2 (λ s s' : object, s' = s ∨ Db.eq "id" id s = true)
          (db_workflowSteps st) (db_workflowSteps st')
  ∧ Forall2 (λ w w' : object,
               w' = w
               ∨ ∃ workflowId,
                   fst (Storage.updateWorkflowStep now id req_body st)
                     ≫= (λ step, step !! "workflowId") = Some (VStr workflowId)
                   ∧ Db.eq "id" workflowId w = true)
            (db_workflows st) (db_workflows st')
  ∧ db_users st' = db_users st
  ∧ db_employees st' = db_employees st
  ∧ db_workflowTemplates st' = db_workflowTemplates st
  ∧ db_templateSteps st' = db_templateSteps st
  ∧ db_tasks st' = db_tasks st
  ∧ db_auditLogs st' = db_auditLogs st
  ∧ db_drawn st' = db_drawn st.
Proof.
  cbv zeta. unfold Routes.patch_workflow_step.
  destruct (Storage.updateWorkflowStep now id req_body st) as [o st1] eqn:Hupd.
  assert (Hst1 : st1 = with_workflowSteps
                         (Db.update_where Schema.workflowSteps (Storage.touched now req_body)
                            (Db.eq "id" id) (db_workflowSteps st)) st).
  { unfold Storage.updateWorkflowStep in Hupd. by injection Hupd as _ <-. }
  assert (Hsteps : Forall2 (λ s s' : object, s' = s ∨ Db.eq "id" id s = true)
                     (db_workflowSteps st) (db_workflowSteps st1)).
  { rewrite Hst1. cbn [db_workflowSteps with_workflowSteps].
    eapply Forall2_impl; [apply update_where_Forall2|].
    intros s s'. cbv beta. destruct (Db.eq "id" id s); [by right | by left]. }
  assert (Hsame : Forall2 (λ w w' : object, w' = w ∨ False) (db_workflows st) (db_workflows st1)).
  { rewrite Hst1. cbn [db_workflows with_workflowSteps].
    apply Forall2_same_length_lookup_2; [done|]. intros i w w' Hw Hw'. left. congruence. }
  cbn [fst].
  destruct o as [step|]; cbn [snd mbind option_bind].
  - destruct (step !! "workflowId") as [[| | |workflowId| |]|] eqn:Hwf;
      try (repeat apply conj; try (by rewrite Hst1);
           [done | eapply Forall2_impl; [apply Hsame|]; by intros ? ? [?|?]; [left|]]).
    destruct (is_str (req_body !! "status") "completed" && truthy (Some (VStr workflowId)));
      [|repeat apply conj; try (by rewrite Hst1);
        [done | eapply Forall2_impl; [apply Hsame|]; by intros ? ? [?|?]; [left|]]].
    unfold Routes.aggregate, Storage.updateWorkflow. cbn [snd].
    repeat apply conj; try (by rewrite Hst1); [done|].
    cbn [db_workflows with_workflows]. rewrite Hst1. cbn [db_workflows with_workflowSteps].
    eapply Forall2_impl; [apply update_where_Forall2|].
    intros w w'. cbv beta. destruct (Db.eq "id" workflowId w) eqn:Hw; [|by left].
    intros _. right. by exists workflowId.
  - repeat apply conj; try (by rewrite Hst1); [done|].
    eapply Forall2_impl; [apply Hsame|]. by intros ? ? [?|?]; [left|].
Qed.

(** ** When the status changes *)

(** The rounding on workflows of up to 200 steps: the progress is 100 only
    when every step is completed (up to 199 steps), and it is above 0 as
    soon as one step is. *)
Lemma percent_ends (completed total : nat) :
  (1 ≤ total ≤ 200)%nat → (completed ≤ total)%nat →
  ((total ≤ 199)%nat →
   Number.strict_eq (percent completed total) (Number.of_Z 100) = true → completed = total)
  ∧ (completed = total →
     Number.strict_eq (percent completed total) (Number.of_Z 100) = true)
  ∧ ((1 ≤ completed)%nat →
     Number.gt (percent completed total) (Number.of_Z 0) = true).
Proof.
  intros Ht Hc.
  assert (Hall : forallb rounding_ends (seq 1 200) = true) by by vm_compute.
  rewrite forallb_forall in Hall.
  specialize (Hall total). unfold rounding_ends in Hall. rewrite forallb_forall in Hall.
  specialize (Hall ltac:(apply in_seq; lia) completed ltac:(apply in_seq; lia)).
  cbv zeta in Hall. apply andb_prop in Hall as [Hall Hpos].
  apply andb_prop in Hall as [Honly Hfull].
  repeat apply conj.
  - intros Hsmall H100. rewrite H100, andb_true_r in Honly.
    rewrite (proj2 (Nat.leb_le total 199) Hsmall) in Honly. by apply Nat.eqb_eq in Honly.
  - intros Heq. rewrite (proj2 (Nat.eqb_eq completed total) Heq) in Hfull. done.
  - intros Hone. by rewrite (proj2 (Nat.leb_le 1 completed) Hone) in Hpos.
Qed.

Lemma completedSteps_le (allSteps : list object) :
  (Routes.completedSteps allSteps ≤ length allSteps)%nat.
Proof. apply List.filter_length_le. Qed.

(** X14. For a workflow of 1 to 199 steps the aggregator writes status
    "completed" exactly when every step is completed. *)
Theorem completed_means_all_steps (now : Z) (allSteps : list object) :
  (1 ≤ length allSteps ≤ 199)%nat →
  Routes.workflowUpdate now allSteps !! "status" = Some (VStr "completed")
  ↔ Routes.completedSteps allSteps = length allSteps.
Proof.
  intros Hlen.
  destruct (percent_ends (Routes.completedSteps allSteps) (length allSteps))
    as (Honly & Hfull & _); [lia | apply completedSteps_le |].
  specialize (Honly ltac:(lia)).
  destruct (workflowUpdate_cases now allSteps) as [(H100 & Hw)|[(H100 & H0 & Hw)|(H100 & H0 & Hw)]];
    rewrite Hw; rewrite progress_is_percent in H100.
  - rewrite lookup_insert_ne, lookup_insert_eq by done.
    split; [intros _; by apply Honly | done].
  - rewrite lookup_insert_eq. split; [done|].
    intros Heq. apply Hfull in Heq. congruence.
  - rewrite lookup_singleton_ne by done. split; [done|].
    intros Heq. apply Hfull in Heq. congruence.
Qed.

Lemma completed_means_all_steps_witness :
  Routes.workflowUpdate 1000 (Sample.workflowSteps "w1" 4 4) !! "status"
    = Some (VStr "completed")
  ↔ Routes.completedSteps (Sample.workflowSteps "w1" 4 4)
    = length (Sample.workflowSteps "w1" 4 4).
Proof.
  apply (completed_means_all_steps 1000 (Sample.workflowSteps "w1" 4 4)).
  vm_compute. lia.
Defined.

(** With 200 steps the bound is passed: 199 completed steps round to 100
    and complete the workflow while one step is still pending. *)
Example completed_with_a_step_pending :
  Routes.completedSteps (Sample.workflowSteps "w1" 200 199) = 199%nat
  ∧ Routes.progress (Sample.workflowSteps "w1" 200 199) = Number.of_Z 100
  ∧ Routes.workflowUpdate 1000 (Sample.workflowSteps "w1" 200 199) !! "status"
    = Some (VStr "completed").
Proof. repeat apply conj; by vm_compute. Qed.

(** X15. For a workflow of up to 200 steps with at least one completed,
    the aggregator always writes a status, "in_progress" or "completed":
    completing a step of such a workflow takes it out of "pending",
    "blocked" or "cancelled". *)
Theorem one_completed_step_sets_the_status (now : Z) (allSteps : list object) (w : object) :
  (length allSteps ≤ 200)%nat → (1 ≤ Routes.completedSteps allSteps)%nat →
  let w' := Db.set Schema.workflows
              (Storage.touched now (Routes.workflowUpdate now allSteps)) w in
  w' !! "status" = Some (VStr "in_progress") ∨ w' !! "status" = Some (VStr "completed").
Proof.
  intros Hlen Hone. cbv zeta.
  pose proof (completedSteps_le allSteps) as Hle.
  destruct (percent_ends (Routes.completedSteps allSteps) (length allSteps))
    as (_ & _ & Hpos); [lia | done |].
  specialize (Hpos Hone).
  rewrite set_touched_lookup by table_fact.
  destruct (workflowUpdate_cases now allSteps) as [(H100 & Hw)|[(H100 & H0 & Hw)|(H100 & H0 & Hw)]];
    rewrite Hw.
  - rewrite lookup_insert_ne, lookup_insert_eq by done. by right.
  - rewrite lookup_insert_eq. by left.
  - rewrite progress_is_percent in H0. congruence.
Qed.

Lemma one_completed_step_sets_the_status_witness :
  let w' := Db.set Schema.workflows
              (Storage.touched 1000
                 (Routes.workflowUpdate 1000 (Sample.workflowSteps "w1" 200 1)))
              (Sample.workflow "w1" "blocked" 0) in
  w' !! "status" = Some (VStr "in_progress") ∨ w' !! "status" = Some (VStr "completed").
Proof.
  apply (one_completed_step_sets_the_status 1000 (Sample.workflowSteps "w1" 200 1)
           (Sample.workflow "w1" "blocked" 0)); vm_compute; lia.
Defined.

(** ** Creating workflows *)

(** What [POST /api/workflows] does with a body that passes validation *)
Lemma post_workflows_created (now : Z) (req_body : object) (st : store) :
  Zod.success (Zod.safeParse Zod.insertWorkflowSchema req_body) = true →
  let data := Zod.strip Zod.insertWorkflowSchema req_body in
  let workflow := Db.inserted Schema.workflows (fresh_uuid st) now data in
  let st1 := draw_uuid (with_workflows (db_workflows st ++ [workflow]) st) in
  ∃ st2,
    Routes.post_workflows now req_body st
    = (Routes.Response 201 (Routes.JObject workflow),
       Routes.createAuditLog now None "create" "workflow" (workflow !! "id")
         (Some (VStr ("Created workflow " ++ Routes.str (workflow !! "name")))) st2)
    ∧ db_workflows st2 = (db_workflows st ++ [workflow])%list
    ∧ db_auditLogs st2 = db_auditLogs st
    ∧ ∃ created, db_workflowSteps st2 = (db_workflowSteps st ++ created)%list
                 ∧ length created
                   = match req_body !! "templateId" with
                     | Some (VStr templateId) =>
                         if String.eqb templateId "" then 0%nat
                         else length (Storage.getTemplateSteps templateId st)
                     | _ => 0%nat
                     end.
Proof.
  intros Hok data workflow st1. unfold Routes.post_workflows.
  rewrite (safeParse_success _ _ Hok). unfold Storage.createWorkflow.
  fold data. fold workflow. fold st1.
  assert (Htid : data !! "templateId" = req_body !! "templateId").
  { apply strip_lookup. table_fact. }
  rewrite Htid.
  destruct (req_body !! "templateId") as [[| | |templateId| |]|];
    try (exists st1; repeat split; try done; exists []; by rewrite app_nil_r).
  cbn [truthy]. destruct (String.eqb templateId ""); cbn [negb].
  - exists st1. repeat split; try done. exists []. by rewrite app_nil_r.
  - eexists. split; [reflexivity|].
    destruct (clone_loop now workflow (Storage.getTemplateSteps templateId st1) st1)
      as ((created & Hcreated & Hall) & _ & Hwf & Hlog).
    cbv zeta in *. rewrite Hwf, Hlog. repeat split; try done.
    exists created. split; [done|]. symmetry. by eapply Forall2_length.
Qed.

(** X16. [POST /api/workflows] does not look the template up: a valid body
    whose [templateId] has no step rows (the template may not exist at all)
    still answers 201 and stores the workflow, with no step. *)
Theorem workflow_of_unknown_template_has_no_steps (now : Z) (req_body : object) (st : store)
    (templateId : string) :
  Zod.success (Zod.safeParse Zod.insertWorkflowSchema req_body) = true →
  req_body !! "templateId" = Some (VStr templateId) →
  Db.select_where (Db.eq "templateId" templateId) (db_templateSteps st) = [] →
  (fst (Routes.post_workflows now req_body st)).(Routes.status) = 201%nat
  ∧ db_workflowSteps (snd (Routes.post_workflows now req_body st)) = db_workflowSteps st
  ∧ length (db_workflows (snd (Routes.post_workflows now req_body st)))
    = S (length (db_workflows st)).
Proof.
  intros Hok Htid Hnone.
  destruct (post_workflows_created now req_body st Hok)
    as (st2 & -> & Hwf & _ & created & Hsteps & Hlen).
  cbn [fst snd].
  destruct (createAuditLog_appends now None "create" "workflow"
              (Db.inserted Schema.workflows (fresh_uuid st) now
                 (Zod.strip Zod.insertWorkflowSchema req_body) !! "id")
              (Some (VStr ("Created workflow " ++ Routes.str
                 (Db.inserted Schema.workflows (fresh_uuid st) now
                    (Zod.strip Zod.insertWorkflowSchema req_body) !! "name")))) st2)
    as (_ & _ & _ & -> & ->).
  rewrite Hwf, Hsteps. repeat apply conj; [done| |rewrite length_app; simpl; lia].
  rewrite Htid in Hlen.
  assert (Hempty : Storage.getTemplateSteps templateId st = []).
  { unfold Storage.getTemplateSteps. by rewrite Hnone. }
  rewrite Hempty in Hlen. destruct (String.eqb templateId ""); cbn in Hlen;
    apply nil_length_inv in Hlen; subst created; apply app_nil_r.
Qed.

Lemma workflow_of_unknown_template_has_no_steps_witness :
  (fst (Routes.post_workflows 1000 (<["templateId" := VStr "ghost"]> Sample.new_workflow)
          Sample.office)).(Routes.status) = 201%nat
  ∧ db_workflowSteps (snd (Routes.post_workflows 1000
                             (<["templateId" := VStr "ghost"]> Sample.new_workflow)
                             Sample.office))
    = db_workflowSteps Sample.office
  ∧ length (db_workflows (snd (Routes.post_workflows 1000
                                 (<["templateId" := VStr "ghost"]> Sample.new_workflow)
                                 Sample.office)))
    = S (length (db_workflows Sample.office)).
Proof.
  apply (workflow_of_unknown_template_has_no_steps 1000
           (<["templateId" := VStr "ghost"]> Sample.new_workflow) Sample.office "ghost");
    by vm_compute.
Defined.

Lemma insertWorkflowSchema_keys :
  map Zod.key Zod.insertWorkflowSchema
  = ["templateId"; "employeeId"; "name"; "type"; "status"; "initiatedBy"; "assignedTo";
     "startDate"; "dueDate"; "completedAt"; "progress"; "metadata"].
Proof. by vm_compute. Qed.

(** X17. A created workflow gets a fresh uuid as its id; it starts with
    status "pending" and progress 0 when the body names neither, and with
    the status and progress of the body when it does: the handler does not
    compare them with the steps. *)
Theorem new_workflow_defaults (now : Z) (req_body : object) (st : store) :
  Zod.success (Zod.safeParse Zod.insertWorkflowSchema req_body) = true →
  ∃ workflow : object,
    fst (Routes.post_workflows now req_body st)
      = Routes.Response 201 (Routes.JObject workflow)
    ∧ last (db_workflows (snd (Routes.post_workflows now req_body st))) = Some workflow
    ∧ workflow !! "id" = Some (VStr (fresh_uuid st))
    ∧ workflow !! "status"
      = Some (match req_body !! "status" with Some v => v | None => VStr "pending" end)
    ∧ workflow !! "progress"
      = Some (match req_body !! "progress" with
              | Some v => v
              | None => VNum (Number.of_Z 0)
              end)
    ∧ workflow !! "completedAt"
      = Some (match req_body !! "completedAt" with Some v => v | None => VNull end).
Proof.
  intros Hok.
  destruct (post_workflows_created now req_body st Hok)
    as (st2 & -> & Hwf & _ & _).
  set (data := Zod.strip Zod.insertWorkflowSchema req_body).
  set (workflow := Db.inserted Schema.workflows (fresh_uuid st) now data).
  exists workflow. cbn [fst snd].
  destruct (createAuditLog_appends now None "create" "workflow" (workflow !! "id")
              (Some (VStr ("Created workflow " ++ Routes.str (workflow !! "name")))) st2)
    as (_ & _ & _ & -> & _).
  rewrite Hwf.
  assert (Hcol : ∀ c : Schema.column,
            c ∈ Schema.workflows → Schema.col_key c ∈ map Zod.key Zod.insertWorkflowSchema →
            workflow !! Schema.col_key c
            = Some match req_body !! Schema.col_key c with
                   | Some v => v
                   | None => match Schema.col_default c with
                             | Schema.gen_random_uuid => VStr (fresh_uuid st)
                             | Schema.defaultNow => VDate now
                             | Schema.default_value v => v
                             | Schema.no_default => VNull
                             end
                   end).
  { intros c Hc Hkey.
    assert (Hdata : data !! Schema.col_key c = req_body !! Schema.col_key c)
      by by apply strip_lookup.
    destruct (req_body !! Schema.col_key c) as [v|] eqn:Hv.
    - apply inserted_lookup; [by apply list_elem_of_fmap_2 | done].
    - by apply inserted_lookup_default; [table_fact | |]. }
  repeat apply conj.
  - done.
  - apply last_snoc.
  - apply (inserted_lookup_default Schema.workflows _ _ data Schema.primaryKey);
      [table_fact | column_of Schema.workflows |].
    apply strip_lookup_none. rewrite insertWorkflowSchema_keys. table_fact.
  - apply (Hcol (Schema.Column "status" Schema.workflowStatusEnum true
                   (Schema.default_value (VStr "pending"))));
      [column_of Schema.workflows | rewrite insertWorkflowSchema_keys; table_fact].
  - apply (Hcol (Schema.Column "progress" Schema.integer true
                   (Schema.default_value (VNum (Number.of_Z 0)))));
      [column_of Schema.workflows | rewrite insertWorkflowSchema_keys; table_fact].
  - apply (Hcol (Schema.Column "completedAt" Schema.timestamp false Schema.no_default));
      [column_of Schema.workflows | rewrite insertWorkflowSchema_keys; table_fact].
Qed.

Lemma new_workflow_defaults_witness :
  ∃ workflow : object,
    fst (Routes.post_workflows 1000 Sample.new_workflow Sample.office)
      = Routes.Response 201 (Routes.JObject workflow)
    ∧ last (db_workflows (snd (Routes.post_workflows 1000 Sample.new_workflow Sample.office)))
      = Some workflow
    ∧ workflow !! "id" = Some (VStr (fresh_uuid Sample.office))
    ∧ workflow !! "status"
      = Some (match Sample.new_workflow !! "status" with
              | Some v => v
              | None => VStr "pending"
              end)
    ∧ workflow !! "progress"
      = Some (match Sample.new_workflow !! "progress" with
              | Some v => v
              | None => VNum (Number.of_Z 0)
              end)
    ∧ workflow !! "completedAt"
      = Some (match Sample.new_workflow !! "completedAt" with
              | Some v => v
              | None => VNull
              end).
Proof.
  apply (new_workflow_defaults 1000 Sample.new_workflow Sample.office). by vm_compute.
Defined.

(** ** Templates and their steps *)

(** The loop appends one row per element of the array, in order, each with
    the given [templateId], and touches no other table. *)
Lemma createTemplateSteps_loop (now : Z) (templateId : option value) (steps : list object)
    (s : store) :
  let s' := Api.createTemplateSteps now templateId steps s in
  (∃ created,
     db_templateSteps s' = (db_templateSteps s ++ created)%list
     ∧ Forall2 (λ step row,
                  ∃ uuid, row = Db.inserted Schema.templateSteps uuid now
                                  (Routes.prop "templateId" templateId step))
               steps created)
  ∧ db_workflowTemplates s' = db_workflowTemplates s
  ∧ db_workflows s' = db_workflows s
  ∧ db_workflowSteps s' = db_workflowSteps s
  ∧ db_auditLogs s' = db_auditLogs s.
Proof.
  unfold Api.createTemplateSteps.
  revert s. induction steps as [|step steps IH]; intros s; cbn [foldl].
  - split; [|done]. exists []. by rewrite app_nil_r.
  - destruct (IH (snd (Storage.createTemplateStep now
                         (Routes.prop "templateId" templateId step) s)))
      as ((created & Hrows & Hall) & Ht & Hw & Hs & Hlog).
    split; [|by rewrite Ht, Hw, Hs, Hlog].
    eexists (_ :: created). split.
    + rewrite Hrows. unfold Storage.createTemplateStep. cbn [snd].
      change (db_templateSteps (draw_uuid (with_templateSteps ?rows s))) with rows.
      by rewrite <- app_assoc.
    + constructor; [by eexists | done].
Qed.

(** A row the loop creates: the [templateId] of the loop, and the other
    columns as the element of the array gives them *)
Lemma template_step_row (now : Z) (uuid templateId : string) (step : object) :
  let row := Db.inserted Schema.templateSteps uuid now
               (Routes.prop "templateId" (Some (VStr templateId)) step) in
  row !! "templateId" = Some (VStr templateId)
  ∧ ∀ k v, k ∈ map Schema.col_key Schema.templateSteps → k ≠ "templateId" →
           step !! k = Some v → row !! k = Some v.
Proof.
  cbv zeta. split.
  - apply inserted_lookup; [table_fact|]. apply lookup_insert_eq.
  - intros k v Hk Hne Hv. apply inserted_lookup; [done|].
    unfold Routes.prop. by rewrite lookup_insert_ne.
Qed.

Lemma select_where_all (p : object → bool) (rows : list object) :
  Forall (λ r, p r = true) rows → Db.select_where p rows = rows.
Proof.
  unfold Db.select_where. induction 1 as [|r rows Hr _ IH]; simpl; [done|].
  by rewrite Hr, IH.
Qed.

(** X18. [PATCH /api/templates/:id] with a steps array replaces the steps
    of an existing template: the step rows of the template are deleted and
    one row per element of the array is appended, with the id of the path
    as [templateId] whatever the element says, so that afterwards the
    template has exactly as many steps as the array, none for the empty
    array. *)
Theorem template_steps_are_replaced (now : Z) (id : string) (templateData : object)
    (steps : list object) (st : store) :
  (1 ≤ length (Db.select_where (Db.eq "id" id) (db_workflowTemplates st)))%nat →
  (fst (Api.patch_template now id templateData (Some steps) st)).(Routes.status) = 200%nat
  ∧ (∃ created,
       db_templateSteps (snd (Api.patch_template now id templateData (Some steps) st))
         = (Db.delete_where (Db.eq "templateId" id) (db_templateSteps st) ++ created)%list
       ∧ Forall2 (λ step row : object,
                    row !! "templateId" = Some (VStr id)
                    ∧ ∀ k v, k ∈ map Schema.col_key Schema.templateSteps →
                             k ≠ "templateId" → step !! k = Some v → row !! k = Some v)
                 steps created)
  ∧ length (Storage.getTemplateSteps id
              (snd (Api.patch_template now id templateData (Some steps) st)))
    = length steps.
Proof.
  intros Hexists. unfold Api.patch_template, Gateway.updateWorkflowTemplate.
  assert (Hhead : is_Some (head (Db.returning Schema.workflowTemplates
                                   (Storage.touched now templateData) (Db.eq "id" id)
                                   (db_workflowTemplates st)))).
  { unfold Db.returning, Db.select_where in *.
    destruct (List.filter _ _); [simpl in Hexists; lia | by eexists]. }
  destruct Hhead as [template ->]. cbn [fst snd Routes.status].
  set (st1 := with_workflowTemplates _ st).
  destruct (createTemplateSteps_loop now (Some (VStr id)) steps
              (snd (Storage.deleteTemplateStepsByTemplateId id st1)))
    as ((created & Hrows & Hall) & _).
  cbv zeta in Hrows.
  assert (Hcreated : Forall2 (λ step row : object,
                       row !! "templateId" = Some (VStr id)
                       ∧ ∀ k v, k ∈ map Schema.col_key Schema.templateSteps →
                                k ≠ "templateId" → step !! k = Some v → row !! k = Some v)
                     steps created).
  { eapply Forall2_impl; [apply Hall|]. intros step row (uuid & ->).
    apply template_step_row. }
  split; [done|]. split; [by exists created|].
  unfold Storage.getTemplateSteps. rewrite orderBy_perm, Hrows.
  unfold Storage.deleteTemplateStepsByTemplateId. cbn [snd db_templateSteps with_templateSteps].
  unfold Db.select_where at 1. rewrite List.filter_app.
  fold (Db.select_where (Db.eq "templateId" id)
          (Db.delete_where (Db.eq "templateId" id) (db_templateSteps st1))).
  rewrite select_deleted. cbn [app].
  fold (Db.select_where (Db.eq "templateId" id) created).
  rewrite select_where_all; [symmetry; by eapply Forall2_length|].
  clear Hrows Hall. induction Hcreated as [|step row ? ? [Hid _] _ IH]; constructor; [|done].
  by apply eq_spec.
Qed.

Lemma template_steps_are_replaced_witness :
  (fst (Api.patch_template 1000 "t1" ∅
          (Some [Sample.new_job_title; Sample.complete; Sample.block])
          Sample.office)).(Routes.status) = 200%nat
  ∧ (∃ created,
       db_templateSteps (snd (Api.patch_template 1000 "t1" ∅
                                (Some [Sample.new_job_title; Sample.complete; Sample.block])
                                Sample.office))
         = (Db.delete_where (Db.eq "templateId" "t1") (db_templateSteps Sample.office)
            ++ created)%list
       ∧ Forall2 (λ step row : object,
                    row !! "templateId" = Some (VStr "t1")
                    ∧ ∀ k v, k ∈ map Schema.col_key Schema.templateSteps →
                             k ≠ "templateId" → step !! k = Some v → row !! k = Some v)
                 [Sample.new_job_title; Sample.complete; Sample.block] created)
  ∧ length (Storage.getTemplateSteps "t1"
              (snd (Api.patch_template 1000 "t1" ∅
                      (Some [Sample.new_job_title; Sample.complete; Sample.block])
                      Sample.office)))
    = length [Sample.new_job_title; Sample.complete; Sample.block].
Proof.
  apply (template_steps_are_replaced 1000 "t1" ∅
           [Sample.new_job_title; Sample.complete; Sample.block] Sample.office).
  vm_compute. lia.
Defined.

Lemma select_other_after_delete (column s s' : string) (rows : list object) :
  s' ≠ s →
  Db.select_where (Db.eq column s') (Db.delete_where (Db.eq column s) rows)
  = Db.select_where (Db.eq column s') rows.
Proof.
  intros Hne. unfold Db.select_where, Db.delete_where.
  induction rows as [|r rows IH]; simpl; [done|].
  destruct (Db.eq column s r) eqn:Hs; destruct (Db.eq column s' r) eqn:Hs'; simpl;
    rewrite ?Hs', ?IH; try done.
  apply eq_spec in Hs, Hs'. congruence.
Qed.

(** X19. [DELETE /api/templates/:id] answers 204 whether or not the
    template exists, and afterwards neither the template nor any of its
    steps is left.  It removes nothing else: the steps of every other
    template are listed as before, the workflows made from the template and
    their steps stay, and no audit row is written. *)
Theorem template_delete_removes_only_its_steps (id : string) (st : store) :
  let st' := snd (Routes.delete_template id st) in
  fst (Routes.delete_template id st) = Routes.Response 204 Routes.NoBody
  ∧ Storage.getWorkflowTemplate id st' = None
  ∧ Storage.getTemplateSteps id st' = []
  ∧ (∀ other, other ≠ id →
       Storage.getTemplateSteps other st' = Storage.getTemplateSteps other st
       ∧ Storage.getWorkflowTemplate other st' = Storage.getWorkflowTemplate other st)
  ∧ db_workflows st' = db_workflows st
  ∧ db_workflowSteps st' = db_workflowSteps st
  ∧ db_auditLogs st' = db_auditLogs st.
Proof.
  cbv zeta. unfold Routes.delete_template, Storage.getWorkflowTemplate,
    Storage.getTemplateSteps, Storage.deleteWorkflowTemplate,
    Storage.deleteTemplateStepsByTemplateId.
  cbn [fst snd db_workflowTemplates db_templateSteps with_workflowTemplates with_templateSteps].
  repeat apply conj; try done.
  - by rewrite select_deleted.
  - by rewrite select_deleted.
  - intros other Hne. by rewrite !select_other_after_delete.
Qed.

Lemma template_delete_removes_only_its_steps_witness :
  Storage.getTemplateSteps "t1" (snd (Routes.delete_template "t1" Sample.office)) = []
  ∧ Storage.getTemplateSteps "t2" (snd (Routes.delete_template "t1" Sample.office))
    = Storage.getTemplateSteps "t2" Sample.office.
Proof.
  destruct (template_delete_removes_only_its_steps "t1" Sample.office)
    as (_ & _ & Hmine & Hother & _).
  split; [done|]. by apply Hother.
Defined.

Lemma insertWorkflowTemplateSchema_keys :
  map Zod.key Api.insertWorkflowTemplateSchema
  = ["name"; "description"; "type"; "status"; "version"; "isDefault"; "estimatedDays";
     "metadata"; "createdBy"].
Proof. by vm_compute. Qed.

(** X20. [POST /api/templates] with a steps array stores one step row per
    element, after the template row, each with the id of the new template
    as [templateId] whatever the element says; the id of the template is
    the fresh uuid. *)
Theorem template_is_created_with_its_steps (now : Z) (templateData : object)
    (steps : list object) (st : store) :
  Zod.success (Zod.safeParse Api.insertWorkflowTemplateSchema templateData) = true →
  ∃ (template : object) (created : list object),
    fst (Api.post_templates now templateData (Some steps) st)
      = Routes.Response 201 (Routes.JObject template)
    ∧ template !! "id" = Some (VStr (fresh_uuid st))
    ∧ db_workflowTemplates (snd (Api.post_templates now templateData (Some steps) st))
      = (db_workflowTemplates st ++ [template])%list
    ∧ db_templateSteps (snd (Api.post_templates now templateData (Some steps) st))
      = (db_templateSteps st ++ created)%list
    ∧ Forall2 (λ step row : object,
                 row !! "templateId" = Some (VStr (fresh_uuid st))
                 ∧ ∀ k v, k ∈ map Schema.col_key Schema.templateSteps →
                          k ≠ "templateId" → step !! k = Some v → row !! k = Some v)
              steps created.
Proof.
  intros Hok. unfold Api.post_templates.
  rewrite (safeParse_success _ _ Hok). unfold Gateway.createWorkflowTemplate.
  set (data := Zod.strip Api.insertWorkflowTemplateSchema templateData).
  set (template := Db.inserted Schema.workflowTemplates (fresh_uuid st) now data).
  set (st1 := draw_uuid (with_workflowTemplates (db_workflowTemplates st ++ [template]) st)).
  assert (Hid : template !! "id" = Some (VStr (fresh_uuid st))).
  { apply (inserted_lookup_default Schema.workflowTemplates _ _ data Schema.primaryKey);
      [table_fact | column_of Schema.workflowTemplates |].
    apply strip_lookup_none. rewrite insertWorkflowTemplateSchema_keys. table_fact. }
  rewrite Hid.
  destruct (createTemplateSteps_loop now (Some (VStr (fresh_uuid st))) steps st1)
    as ((created & Hrows & Hall) & Ht & _).
  cbv zeta in *.
  exists template, created. cbn [fst snd].
  destruct (createAuditLog_appends now None "create" "template" (Some (VStr (fresh_uuid st)))
              (Some (VStr ("Created template " ++ Routes.str (template !! "name"))))
              (Api.createTemplateSteps now (Some (VStr (fresh_uuid st))) steps st1))
    as (_ & _ & _ & _ & _).
  repeat apply conj; try done.
  eapply Forall2_impl; [apply Hall|]. intros step row (uuid & ->). apply template_step_row.
Qed.

Lemma template_is_created_with_its_steps_witness :
  ∃ (template : object) (created : list object),
    fst (Api.post_templates 1000 (Sample.template "ignored")
           (Some [Sample.templateStep "elsewhere" "x" "A" 1]) Sample.office)
      = Routes.Response 201 (Routes.JObject template)
    ∧ template !! "id" = Some (VStr (fresh_uuid Sample.office))
    ∧ db_workflowTemplates
        (snd (Api.post_templates 1000 (Sample.template "ignored")
                (Some [Sample.templateStep "elsewhere" "x" "A" 1]) Sample.office))
      = (db_workflowTemplates Sample.office ++ [template])%list
    ∧ db_templateSteps
        (snd (Api.post_templates 1000 (Sample.template "ignored")
                (Some [Sample.templateStep "elsewhere" "x" "A" 1]) Sample.office))
      = (db_templateSteps Sample.office ++ created)%list
    ∧ Forall2 (λ step row : object,
                 row !! "templateId" = Some (VStr (fresh_uuid Sample.office))
                 ∧ ∀ k v, k ∈ map Schema.col_key Schema.templateSteps →
                          k ≠ "templateId" → step !! k = Some v → row !! k = Some v)
              [Sample.templateStep "elsewhere" "x" "A" 1] created.
Proof.
  apply (template_is_created_with_its_steps 1000 (Sample.template "ignored")
           [Sample.templateStep "elsewhere" "x" "A" 1] Sample.office).
  by vm_compute.
Defined.

(** ** What the audit log records *)

Lemma createAuditLog_without_actor (now : Z) (action entityType : string)
    (entityId description : option value) (st st1 : store) :
  db_auditLogs st1 = db_auditLogs st →
  ∃ log : object,
    db_auditLogs (Routes.createAuditLog now None action entityType entityId description st1)
      = (db_auditLogs st ++ [log])%list
    ∧ log !! "action" = Some (VStr action)
    ∧ log !! "entityType" = Some (VStr entityType)
    ∧ log !! "userId" = Some VNull
    ∧ log !! "changes" = Some VNull.
Proof.
  intros <-. eexists. split; [reflexivity|].
  repeat apply conj; (apply inserted_lookup; [table_fact | by simplify_map_eq]).
Qed.

(** X21. Every audit row a handler writes names the action and the kind of
    entity but no actor: [userId] is NULL, and so is [changes].  This is
    the one row appended by a successful create of a user, employee,
    workflow or template, by an update of an existing user, and by every
    delete of a user. *)
Theorem audit_rows_name_no_actor (bcrypt_hash : string → nat → string) (now : Z)
    (id : string) (req_body : object) (steps : option (list object)) (st : store) :
  let logged (action entityType : string) (r : Routes.response * store) :=
    ∃ log : object,
      db_auditLogs (snd r) = (db_auditLogs st ++ [log])%list
      ∧ log !! "action" = Some (VStr action)
      ∧ log !! "entityType" = Some (VStr entityType)
      ∧ log !! "userId" = Some VNull
      ∧ log !! "changes" = Some VNull in
  let succeeded (code : nat) (r : Routes.response * store) :=
    (fst r).(Routes.status) = code in
  (succeeded 201 (Routes.post_users bcrypt_hash now req_body st) →
   logged "create" "user" (Routes.post_users bcrypt_hash now req_body st))
  ∧ (succeeded 200 (Routes.patch_user bcrypt_hash now id req_body st) →
     logged "update" "user" (Routes.patch_user bcrypt_hash now id req_body st))
  ∧ logged "delete" "user" (Routes.delete_user now id st)
  ∧ (succeeded 201 (Routes.post_employees now req_body st) →
     logged "create" "employee" (Routes.post_employees now req_body st))
  ∧ (succeeded 201 (Routes.post_workflows now req_body st) →
     logged "create" "workflow" (Routes.post_workflows now req_body st))
  ∧ (succeeded 201 (Api.post_templates now req_body steps st) →
     logged "create" "template" (Api.post_templates now req_body steps st)).
Proof.
  cbv zeta. repeat apply conj.
  - unfold Routes.post_users. destruct (Zod.safeParse _ _); [done|]. intros _.
    unfold Storage.createUser. cbn [snd]. by apply createAuditLog_without_actor.
  - unfold Routes.patch_user, Storage.updateUser.
    destruct (match req_body !! "password" with Some _ => _ | None => _ end); [|done].
    destruct (head _); [|done]. intros _. cbn [snd]. by apply createAuditLog_without_actor.
  - unfold Routes.delete_user. cbn [snd]. by apply createAuditLog_without_actor.
  - unfold Routes.post_employees. destruct (Zod.safeParse _ _); [done|]. intros _.
    unfold Storage.createEmployee. cbn [snd]. by apply createAuditLog_without_actor.
  - intros Hcreated.
    assert (Hok : Zod.success (Zod.safeParse Zod.insertWorkflowSchema req_body) = true).
    { unfold Routes.post_workflows in Hcreated. by destruct (Zod.safeParse _ _). }
    destruct (post_workflows_created now req_body st Hok) as (st2 & -> & _ & Hlog & _).
    cbn [snd]. by apply createAuditLog_without_actor.
  - unfold Api.post_templates. destruct (Zod.safeParse _ _) as [|data]; [done|]. intros _.
    unfold Gateway.createWorkflowTemplate. cbn [snd].
    set (template := Db.inserted _ _ _ _).
    set (st1 := draw_uuid _).
    assert (Hlog : db_auditLogs match steps with
                                | Some steps =>
                                    Api.createTemplateSteps now (template !! "id") steps st1
                                | None => st1
                                end = db_auditLogs st).
    { destruct steps as [steps|]; [|done].
      by destruct (createTemplateSteps_loop now (template !! "id") steps st1)
        as (_ & _ & _ & _ & ->). }
    by apply createAuditLog_without_actor.
Qed.

Lemma audit_rows_name_no_actor_witness :
  (∃ log : object,
     db_auditLogs (snd (Routes.post_users Sample.bcrypt_hash 1000 Sample.new_user
                          Sample.office))
       = (db_auditLogs Sample.office ++ [log])%list
     ∧ log !! "action" = Some (VStr "create")
     ∧ log !! "entityType" = Some (VStr "user")
     ∧ log !! "userId" = Some VNull
     ∧ log !! "changes" = Some VNull)
  ∧ (∃ log : object,
       db_auditLogs (snd (Routes.post_workflows 1000 Sample.new_workflow Sample.office))
         = (db_auditLogs Sample.office ++ [log])%list
       ∧ log !! "action" = Some (VStr "create")
       ∧ log !! "entityType" = Some (VStr "workflow")
       ∧ log !! "userId" = Some VNull
       ∧ log !! "changes" = Some VNull).
Proof.
  split.
  - destruct (audit_rows_name_no_actor Sample.bcrypt_hash 1000 "u1" Sample.new_user None
                Sample.office) as (Huser & _).
    apply Huser. by vm_compute.
  - destruct (audit_rows_name_no_actor Sample.bcrypt_hash 1000 "u1" Sample.new_workflow None
                Sample.office) as (_ & _ & _ & _ & Hworkflow & _).
    apply Hworkflow. by vm_compute.
Defined.

(** ** Reports *)

Lemma tally_sum (v : option value) (groups : list (option value * nat)) :
  sum_list (map snd (Gateway.tally v groups)) = S (sum_list (map snd groups)).
Proof.
  induction groups as [|[v' n] groups IH]; simpl; [done|].
  destruct (Gateway.same_value v' v); simpl; [done|]. rewrite IH. lia.
Qed.

Lemma groupBy_sum (column : string) (rows : list object) :
  sum_list (map snd (Gateway.groupBy column rows)) = length rows.
Proof.
  unfold Gateway.groupBy.
  assert (Hgen : ∀ groups,
            sum_list (map snd (foldl (λ groups row, Gateway.tally (row !! column) groups)
                                 groups rows))
            = (sum_list (map snd groups) + length rows)%nat).
  { induction rows as [|row rows IH]; intros groups; simpl; [lia|].
    rewrite IH, tally_sum. lia. }
  by rewrite Hgen.
Qed.

(** X22. The workflow metrics add up: the counts by type and the counts by
    status each sum to the total, the completed count is at most the total
    and the total at most the number of workflows, all of them when no date
    is given; the average completion time reported is 5 days whatever the
    data. *)
Theorem workflow_metrics_add_up (startDate endDate : option Z) (st : store) :
  let m := Gateway.getWorkflowMetrics startDate endDate st in
  sum_list (map snd (Gateway.byType m)) = Gateway.totalWorkflows m
  ∧ sum_list (map snd (Gateway.byStatus m)) = Gateway.totalWorkflows m
  ∧ (Gateway.completedWorkflows m ≤ Gateway.totalWorkflows m)%nat
  ∧ (Gateway.totalWorkflows m ≤ length (db_workflows st))%nat
  ∧ Gateway.totalWorkflows (Gateway.getWorkflowMetrics None None st)
    = length (db_workflows st)
  ∧ Gateway.avgCompletionDays m = 5%nat.
Proof.
  cbv zeta. unfold Gateway.getWorkflowMetrics. cbn.
  repeat apply conj; try done.
  - apply groupBy_sum.
  - apply groupBy_sum.
  - apply List.filter_length_le.
  - apply List.filter_length_le.
  - unfold Db.select_where. f_equal.
    induction (db_workflows st) as [|w ws IH]; simpl; [done|]. by rewrite IH.
Qed.

(** ** The template builder of the client *)

(** X23. [addStep] numbers the steps by their count: on steps numbered
    1 to n it appends, for a new step with a name, a step numbered n + 1
    marked required, and does nothing for a new step without a name. *)
Theorem addStep_numbers_by_count (steps : list object) (newStep : object) :
  map (λ s : object, s !! "stepOrder") steps
    = map (λ i, Some (VNum (Number.of_nat i))) (seq 1 (length steps)) →
  (truthy (newStep !! "name") = false → Client.addStep steps newStep = steps)
  ∧ (truthy (newStep !! "name") = true →
     length (Client.addStep steps newStep) = S (length steps)
     ∧ map (λ s : object, s !! "stepOrder") (Client.addStep steps newStep)
       = map (λ i, Some (VNum (Number.of_nat i))) (seq 1 (S (length steps)))
     ∧ last (Client.addStep steps newStep) ≫= (λ s, s !! "name") = newStep !! "name"
     ∧ last (Client.addStep steps newStep) ≫= (λ s, s !! "isRequired")
       = Some (VBool true)).
Proof.
  intros Hnumbered. unfold Client.addStep. split; intros Hname; rewrite Hname; cbn [negb].
  - done.
  - repeat apply conj.
    + rewrite length_app. simpl. lia.
    + rewrite map_app, Hnumbered, seq_S, map_app. cbn [map].
      by rewrite lookup_insert_ne, lookup_insert_eq, Nat.add_comm by done.
    + rewrite last_snoc. cbn. by rewrite !lookup_insert_ne by done.
    + rewrite last_snoc. cbn. by rewrite lookup_insert_eq.
Qed.

Lemma addStep_numbers_by_count_witness :
  (truthy (Sample.templateStep "t1" "x" "C" 9 !! "name") = false →
   Client.addStep [Sample.templateStep "t1" "ts1" "A" 1; Sample.templateStep "t1" "ts2" "B" 2]
     (Sample.templateStep "t1" "x" "C" 9)
   = [Sample.templateStep "t1" "ts1" "A" 1; Sample.templateStep "t1" "ts2" "B" 2])
  ∧ (truthy (Sample.templateStep "t1" "x" "C" 9 !! "name") = true →
     length (Client.addStep
               [Sample.templateStep "t1" "ts1" "A" 1; Sample.templateStep "t1" "ts2" "B" 2]
               (Sample.templateStep "t1" "x" "C" 9))
     = S (length [Sample.templateStep "t1" "ts1" "A" 1; Sample.templateStep "t1" "ts2" "B" 2])
     ∧ map (λ s : object, s !! "stepOrder")
           (Client.addStep
              [Sample.templateStep "t1" "ts1" "A" 1; Sample.templateStep "t1" "ts2" "B" 2]
              (Sample.templateStep "t1" "x" "C" 9))
       = map (λ i, Some (VNum (Number.of_nat i)))
             (seq 1 (S (length [Sample.templateStep "t1" "ts1" "A" 1;
                                Sample.templateStep "t1" "ts2" "B" 2])))
     ∧ last (Client.addStep
               [Sample.templateStep "t1" "ts1" "A" 1; Sample.templateStep "t1" "ts2" "B" 2]
               (Sample.templateStep "t1" "x" "C" 9)) ≫= (λ s, s !! "name")
       = Sample.templateStep "t1" "x" "C" 9 !! "name"
     ∧ last (Client.addStep
               [Sample.templateStep "t1" "ts1" "A" 1; Sample.templateStep "t1" "ts2" "B" 2]
               (Sample.templateStep "t1" "x" "C" 9)) ≫= (λ s, s !! "isRequired")
       = Some (VBool true)).
Proof.
  apply (addStep_numbers_by_count
           [Sample.templateStep "t1" "ts1" "A" 1; Sample.templateStep "t1" "ts2" "B" 2]
           (Sample.templateStep "t1" "x" "C" 9)).
  by vm_compute.
Defined.

(** X24. [removeStep] does not renumber: remove any step but the last from
    steps numbered 1 to n and add a named step, and the last two steps both
    carry the number n. *)
Theorem removeStep_then_addStep_repeats_a_number (steps : list object) (newStep : object)
    (index : nat) :
  map (λ s : object, s !! "stepOrder") steps
    = map (λ i, Some (VNum (Number.of_nat i))) (seq 1 (length steps)) →
  (S index < length steps)%nat →
  truthy (newStep !! "name") = true →
  let steps' := Client.addStep (Client.removeStep steps index) newStep in
  length steps' = length steps
  ∧ steps' !! (length steps - 2)%nat ≫= (λ s, s !! "stepOrder")
    = Some (VNum (Number.of_nat (length steps)))
  ∧ steps' !! (length steps - 1)%nat ≫= (λ s, s !! "stepOrder")
    = Some (VNum (Number.of_nat (length steps))).
Proof.
  intros Hnumbered Hindex Hname. cbv zeta.
  unfold Client.addStep, Client.removeStep. rewrite Hname. cbn [negb].
  assert (Hlen : length (delete index steps) = (length steps - 1)%nat).
  { rewrite length_delete; [done|]. apply lookup_lt_is_Some. lia. }
  assert (Hlast : steps !! (length steps - 1)%nat ≫= (λ s : object, s !! "stepOrder")
                  = Some (VNum (Number.of_nat (length steps)))).
  { assert (Hl : map (λ s : object, s !! "stepOrder") steps !! (length steps - 1)%nat
                 = Some (Some (VNum (Number.of_nat (length steps))))).
    { rewrite Hnumbered, list_lookup_fmap, lookup_seq_lt by lia.
      replace (1 + (length steps - 1))%nat with (length steps) by lia. done. }
    rewrite list_lookup_fmap in Hl.
    destruct (steps !! (length steps - 1)%nat); simpl in *; congruence. }
  repeat apply conj.
  - rewrite length_app, Hlen. simpl. lia.
  - rewrite lookup_app_l by (rewrite Hlen; lia). rewrite list_lookup_delete_ge by lia.
    replace (S (length steps - 2)) with (length steps - 1)%nat by lia. done.
  - rewrite lookup_app_r by (rewrite Hlen; lia). rewrite Hlen, Nat.sub_diag. cbn.
    rewrite lookup_insert_ne, lookup_insert_eq by done.
    replace (length steps - 1 + 1)%nat with (length steps) by lia. done.
Qed.

Lemma removeStep_then_addStep_repeats_a_number_witness :
  let steps' :=
    Client.addStep
      (Client.removeStep
         [Sample.templateStep "t1" "ts1" "A" 1; Sample.templateStep "t1" "ts2" "B" 2] 0)
      (Sample.templateStep "t1" "x" "C" 9) in
  length steps'
    = length [Sample.templateStep "t1" "ts1" "A" 1; Sample.templateStep "t1" "ts2" "B" 2]
  ∧ steps' !! (length [Sample.templateStep "t1" "ts1" "A" 1;
                       Sample.templateStep "t1" "ts2" "B" 2] - 2)%nat
      ≫= (λ s, s !! "stepOrder")
    = Some (VNum (Number.of_nat
                    (length [Sample.templateStep "t1" "ts1" "A" 1;
                             Sample.templateStep "t1" "ts2" "B" 2])))
  ∧ steps' !! (length [Sample.templateStep "t1" "ts1" "A" 1;
                       Sample.templateStep "t1" "ts2" "B" 2] - 1)%nat
      ≫= (λ s, s !! "stepOrder")
    = Some (VNum (Number.of_nat
                    (length [Sample.templateStep "t1" "ts1" "A" 1;
                             Sample.templateStep "t1" "ts2" "B" 2]))).
Proof.
  apply (removeStep_then_addStep_repeats_a_number
           [Sample.templateStep "t1" "ts1" "A" 1; Sample.templateStep "t1" "ts2" "B" 2]
           (Sample.templateStep "t1" "x" "C" 9) 0).
  - by vm_compute.
  - vm_compute. lia.
  - by vm_compute.
Defined.

(** ** Fetching what was created or deleted *)

(** X25. A workflow created from a template can be fetched with its steps:
    when the uuid about to be drawn is the id of no workflow and the
    [workflowId] of no step, [GET /api/workflows/:id] with the id of the
    created workflow answers with that workflow and with one step per step
    of the template, all of them pending. *)
Theorem created_workflow_is_fetched_with_its_steps (now : Z) (req_body : object) (st : store)
    (templateId : string) :
  Zod.success (Zod.safeParse Zod.insertWorkflowSchema req_body) = true →
  req_body !! "templateId" = Some (VStr templateId) →
  templateId ≠ "" →
  Db.select_where (Db.eq "id" (fresh_uuid st)) (db_workflows st) = [] →
  Db.select_where (Db.eq "workflowId" (fresh_uuid st)) (db_workflowSteps st) = [] →
  ∃ (workflow : object) (steps : list object) (employee : option object),
    fst (Routes.post_workflows now req_body st)
      = Routes.Response 201 (Routes.JObject workflow)
    ∧ fst (Api.get_workflow (fresh_uuid st) (snd (Routes.post_workflows now req_body st)))
      = Api.WithStepsAndEmployee workflow steps employee
    ∧ length steps = length (Storage.getTemplateSteps templateId st)
    ∧ Forall (λ step : object, step !! "status" = Some (VStr "pending")
                               ∧ step !! "workflowId" = Some (VStr (fresh_uuid st)))
             steps.
Proof.
  intros Hok Htid Hne Hfresh Hnosteps.
  set (data := Zod.strip Zod.insertWorkflowSchema req_body).
  set (workflow := Db.inserted Schema.workflows (fresh_uuid st) now data).
  assert (Hid : workflow !! "id" = Some (VStr (fresh_uuid st))).
  { apply (inserted_lookup_default Schema.workflows _ _ data Schema.primaryKey);
      [table_fact | column_of Schema.workflows |].
    apply strip_lookup_none. rewrite insertWorkflowSchema_keys. table_fact. }
  assert (Hpost : ∃ st' created,
            Routes.post_workflows now req_body st
              = (Routes.Response 201 (Routes.JObject workflow), st')
            ∧ db_workflows st' = (db_workflows st ++ [workflow])%list
            ∧ db_workflowSteps st' = (db_workflowSteps st ++ created)%list
            ∧ length created = length (Storage.getTemplateSteps templateId st)
            ∧ Forall (λ step : object,
                        step !! "status" = Some (VStr "pending")
                        ∧ step !! "workflowId" = Some (VStr (fresh_uuid st))) created).
  { unfold Routes.post_workflows. rewrite (safeParse_success _ _ Hok).
    unfold Storage.createWorkflow. fold data. fold workflow.
    set (st1 := draw_uuid (with_workflows (db_workflows st ++ [workflow]) st)).
    assert (Hdata : data !! "templateId" = Some (VStr templateId)).
    { unfold data. by rewrite strip_lookup by table_fact. }
    rewrite Hdata. cbn [truthy]. rewrite (proj2 (String.eqb_neq templateId "") Hne).
    cbn [negb].
    destruct (clone_loop now workflow (Storage.getTemplateSteps templateId st1) st1)
      as ((created & Hcreated & Hall) & _ & Hwf & _).
    cbv zeta in *. eexists _, created. split; [reflexivity|].
    destruct (createAuditLog_appends now None "create" "workflow" (workflow !! "id")
                (Some (VStr ("Created workflow " ++ Routes.str (workflow !! "name"))))
                (foldl (λ s templateStep,
                          snd (Storage.createWorkflowStep now
                                 (Routes.cloned workflow templateStep) s))
                       st1 (Storage.getTemplateSteps templateId st1)))
      as (_ & _ & _ & -> & ->).
    rewrite Hwf, Hcreated. repeat apply conj; try done.
    - symmetry. by eapply Forall2_length.
    - apply Forall_forall. intros step Hstep.
      apply list_elem_of_lookup in Hstep as [i Hstep].
      destruct (Forall2_lookup_r _ _ _ _ _ Hall Hstep) as (ts & _ & uuid & ->).
      destruct (cloned_lookup workflow ts) as (Hc1 & _ & _ & _ & Hc5).
      rewrite Hid in Hc1. split; by apply inserted_lookup; [table_fact|]. }
  destruct Hpost as (st' & created & -> & Hwf & Hsteps & Hlen & Hall).
  cbn [fst snd]. unfold Api.get_workflow, Storage.getWorkflow.
  rewrite Hwf. unfold Db.select_where at 1. rewrite List.filter_app.
  fold (Db.select_where (Db.eq "id" (fresh_uuid st)) (db_workflows st)).
  rewrite Hfresh. cbn [List.filter app].
  rewrite (proj2 (eq_spec "id" (fresh_uuid st) workflow) Hid). cbn [head fst].
  eexists workflow, _, _. split; [done|]. split; [reflexivity|].
  assert (Hmine : Db.select_where (Db.eq "workflowId" (fresh_uuid st)) (db_workflowSteps st')
                  = created).
  { rewrite Hsteps. unfold Db.select_where at 1. rewrite List.filter_app.
    fold (Db.select_where (Db.eq "workflowId" (fresh_uuid st)) (db_workflowSteps st)).
    rewrite Hnosteps. cbn [app]. apply select_where_all.
    eapply Forall_impl; [apply Hall|]. intros step [_ Hw]. by apply eq_spec. }
  unfold Storage.getWorkflowSteps. rewrite Hmine. split.
  - by rewrite orderBy_perm.
  - by rewrite orderBy_perm.
Qed.

Lemma created_workflow_is_fetched_with_its_steps_witness :
  ∃ (workflow : object) (steps : list object) (employee : option object),
    fst (Routes.post_workflows 1000 Sample.new_workflow Sample.office)
      = Routes.Response 201 (Routes.JObject workflow)
    ∧ fst (Api.get_workflow (fresh_uuid Sample.office)
             (snd (Routes.post_workflows 1000 Sample.new_workflow Sample.office)))
      = Api.WithStepsAndEmployee workflow steps employee
    ∧ length steps = length (Storage.getTemplateSteps "t1" Sample.office)
    ∧ Forall (λ step : object, step !! "status" = Some (VStr "pending")
                               ∧ step !! "workflowId"
                                 = Some (VStr (fresh_uuid Sample.office)))
             steps.
Proof.
  apply (created_workflow_is_fetched_with_its_steps 1000 Sample.new_workflow Sample.office
           "t1"); by vm_compute.
Defined.

(** X26. After a delete the row cannot be fetched: [GET] by the same id
    answers 404 for an employee, a workflow and a task, whether or not the
    row existed, and each of these deletes answers 204 and leaves the audit
    log as it was. *)
Theorem deleted_rows_are_gone (id : string) (st : store) :
  (fst (Routes.delete_employee id st) = Routes.Response 204 Routes.NoBody
   ∧ fst (Api.get_employee id (snd (Routes.delete_employee id st)))
     = Routes.Response 404 (Routes.JMessage "Employee not found")
   ∧ db_auditLogs (snd (Routes.delete_employee id st)) = db_auditLogs st)
  ∧ (fst (Routes.delete_workflow id st) = Routes.Response 204 Routes.NoBody
     ∧ fst (Api.get_workflow id (snd (Routes.delete_workflow id st)))
       = Api.Plain (Routes.Response 404 (Routes.JMessage "Workflow not found"))
     ∧ db_auditLogs (snd (Routes.delete_workflow id st)) = db_auditLogs st)
  ∧ (fst (Api.delete_task id st) = Routes.Response 204 Routes.NoBody
     ∧ fst (Api.get_task id (snd (Api.delete_task id st)))
       = Routes.Response 404 (Routes.JMessage "Task not found")
     ∧ db_auditLogs (snd (Api.delete_task id st)) = db_auditLogs st).
Proof.
  unfold Api.get_employee, Api.get_workflow, Api.get_task, Storage.getEmployee,
    Storage.getWorkflow, Gateway.getTask, Routes.delete_employee, Routes.delete_workflow,
    Api.delete_task, Storage.deleteEmployee, Storage.deleteWorkflow, Gateway.deleteTask.
  cbn [fst snd db_employees db_workflows db_tasks with_employees with_workflows with_tasks].
  rewrite !select_deleted. by repeat apply conj.
Qed.

Lemma insertTemplateStepSchema_keys :
  map Zod.key Api.insertTemplateStepSchema
  = ["templateId"; "name"; "description"; "stepOrder"; "assigneeRole"; "assigneeId";
     "slaMinutes"; "isRequired"; "automationConfig"; "metadata"].
Proof. by vm_compute. Qed.

(** X27. [POST /api/templates/:id/steps] files the step under the template
    of the path: the [templateId] of the body, if any, is overwritten
    before validation, so the verdict does not depend on it, and a body
    naming another template cannot move the step there. *)
Theorem step_is_filed_under_the_path (now : Z) (id : string) (req_body : object) (st : store) :
  (fst (Api.post_template_step now id req_body st)).(Routes.status) = 201%nat →
  ∃ step : object,
    fst (Api.post_template_step now id req_body st)
      = Routes.Response 201 (Routes.JObject step)
    ∧ db_templateSteps (snd (Api.post_template_step now id req_body st))
      = (db_templateSteps st ++ [step])%list
    ∧ step !! "templateId" = Some (VStr id)
    ∧ Zod.safeParse Api.insertTemplateStepSchema (<["templateId" := VStr id]> req_body)
      = Zod.safeParse Api.insertTemplateStepSchema
          (<["templateId" := VStr id]> (delete "templateId" req_body)).
Proof.
  intros Hcreated. unfold Api.post_template_step in *.
  destruct (Zod.safeParse _ _) as [|data] eqn:Hparse; [done|].
  assert (Hdata : data = Zod.strip Api.insertTemplateStepSchema
                           (<["templateId" := VStr id]> req_body)).
  { assert (Hok : Zod.success (Zod.safeParse Api.insertTemplateStepSchema
                                 (<["templateId" := VStr id]> req_body)) = true)
      by by rewrite Hparse.
    rewrite (safeParse_success _ _ Hok) in Hparse. by injection Hparse. }
  unfold Storage.createTemplateStep. cbn [fst snd].
  eexists. repeat apply conj; try done.
  - apply inserted_lookup; [table_fact|]. rewrite Hdata.
    rewrite strip_lookup by (rewrite insertTemplateStepSchema_keys; table_fact).
    apply lookup_insert_eq.
  - by rewrite insert_delete_eq.
Qed.

Lemma step_is_filed_under_the_path_witness :
  ∃ step : object,
    fst (Api.post_template_step 1000 "t1" (Sample.templateStep "elsewhere" "x" "C" 3)
           Sample.office)
      = Routes.Response 201 (Routes.JObject step)
    ∧ db_templateSteps (snd (Api.post_template_step 1000 "t1"
                               (Sample.templateStep "elsewhere" "x" "C" 3) Sample.office))
      = (db_templateSteps Sample.office ++ [step])%list
    ∧ step !! "templateId" = Some (VStr "t1")
    ∧ Zod.safeParse Api.insertTemplateStepSchema
        (<["templateId" := VStr "t1"]> (Sample.templateStep "elsewhere" "x" "C" 3))
      = Zod.safeParse Api.insertTemplateStepSchema
          (<["templateId" := VStr "t1"]>
             (delete "templateId" (Sample.templateStep "elsewhere" "x" "C" 3))).
Proof.
  apply (step_is_filed_under_the_path 1000 "t1" (Sample.templateStep "elsewhere" "x" "C" 3)
           Sample.office).
  by vm_compute.
Defined.
